(** * Student records front-end: data view layer

    A shallow embedding of the client-side data view layer of the students
    management application, file by file:

    - [frontend/src/types/student.ts]: the records and the view state;
    - [frontend/src/services/studentService.ts]: the transform layer and
      the store client;
    - [store/studentSlice.ts] (the last file under [start-app.sh] in the
      sources): the async thunks and the slice reducer;
    - [pages/StudentsPage.tsx] (the page that holds
      [filteredAndSortedStudents] and [handleSort]): the filter and sort
      pipeline and the page's handlers;
    - [frontend/src/components/StudentForm.tsx]: the form validation.

    JavaScript strings are modelled as sequences of code units in the
    Latin-1 range (Rocq [string]); the integer-valued fields of a record
    ([class], [age], [siblings], [uuid]) are [Z]; a value that may be [NaN],
    infinite or fractional (the result of [parseFloat], a numeric wire gpa)
    is a [number]. *)

From Stdlib Require Import ZArith QArith Ascii.
From stdpp Require Import base tactics option list strings pretty sorting.

Local Open Scope Z_scope.

(** ** JavaScript values used by the sources *)

Module Js.

(** *** Strings *)

(** WhiteSpace and LineTerminator code units below 256, the characters
    removed by [String.prototype.trim]. *)
Definition isWhiteSpace (c : ascii) : bool :=
  match c with
  | "009" | "010" | "011" | "012" | "013" | " " | "160" => true
  | _ => false
  end%char.

Fixpoint trimStart (s : string) : string :=
  match s with
  | String c rest => if isWhiteSpace c then trimStart rest else s
  | EmptyString => EmptyString
  end.

Definition trimEnd (s : string) : string :=
  String.rev (trimStart (String.rev s)).

(** Every code unit of the string is white space. *)
Fixpoint allWhiteSpace (s : string) : bool :=
  match s with
  | String c rest => isWhiteSpace c && allWhiteSpace rest
  | EmptyString => true
  end.

(** [s.trim()] *)
Definition trim (s : string) : string := trimEnd (trimStart s).

(** Simple case mapping on Latin-1: A-Z and the accented capitals
    U+00C0-U+00DE (without the multiplication sign U+00D7). *)
Definition toLowerCaseUnit (c : ascii) : ascii :=
  let n := N_of_ascii c in
  if ((65 <=? n) && (n <=? 90) ||
      (192 <=? n) && (n <=? 222) && negb (n =? 215))%N
  then ascii_of_N (n + 32) else c.

(** [s.toLowerCase()] *)
Fixpoint toLowerCase (s : string) : string :=
  match s with
  | String c rest => String (toLowerCaseUnit c) (toLowerCase rest)
  | EmptyString => EmptyString
  end.

(** [s.startsWith(p)] *)
Fixpoint startsWith (s p : string) {struct p} : bool :=
  match p, s with
  | EmptyString, _ => true
  | String _ _, EmptyString => false
  | String a p', String b s' => bool_decide (a = b) && startsWith s' p'
  end.

(** [s.includes(p)]: [p] occurs in [s] at some position. *)
Fixpoint includes (s p : string) : bool :=
  startsWith s p ||
  match s with
  | String _ rest => includes rest p
  | EmptyString => false
  end.

(** [!s] for a string: only the empty string is falsy. *)
Definition truthyString (s : string) : bool :=
  match s with EmptyString => false | String _ _ => true end.

(** *** Numbers *)

(** A Number value: every finite binary64 value is a rational, and the
    comparisons the sources make do not tell [-0] from [0]. *)
Inductive number : Type :=
| NaN
| Infinity (negative : bool)
| Finite (q : Q).

Definition isNaN (n : number) : bool :=
  match n with NaN => true | _ => false end.

(** [a < b] on Numbers; any comparison with [NaN] is false. *)
Definition ltb (a b : number) : bool :=
  match a, b with
  | NaN, _ | _, NaN => false
  | Infinity true, Infinity true => false
  | Infinity true, _ => true
  | _, Infinity true => false
  | Infinity false, _ => false
  | _, Infinity false => true
  | Finite p, Finite q => negb (Qle_bool q p)
  end.

(** [a > b] *)
Definition gtb (a b : number) : bool := ltb b a.

Definition ofZ (z : Z) : number := Finite (inject_Z z).

(** The result of [parseInt]: an integer or [NaN]. *)
Inductive integer : Type :=
| NaNInt
| Int (z : Z).

(** [!n]: [0] and [NaN] are the falsy numbers. *)
Definition truthyInteger (n : integer) : bool :=
  match n with
  | NaNInt => false
  | Int z => negb (z =? 0)
  end.

(** [n.toString()] for a safe integer: its decimal digits. *)
Definition integerToString (z : Z) : string := pretty z.

(** *** What a rejected promise or a [throw] carries *)
Inductive Thrown : Type :=
| ErrorObject (message : string)   (* [error instanceof Error] *)
| OtherValue.

(** *** Built-ins whose result depends on the engine or the locale

    [String.prototype.localeCompare] follows the collation of the host
    locale, [parseFloat] rounds the decimal literal it reads to binary64
    and [String(n)] prints the shortest decimal that reads back as [n].
    The development is parametric in all three. *)
Class Runtime : Type := {
  localeCompare : string → string → Z;
  parseFloat : string → number;
  numberToString : number → string;
}.

End Js.

Export Js (Runtime, localeCompare, parseFloat, numberToString).

(** ** types/student.ts *)

Inductive Sex : Type := male | female.

Definition sexToString (x : Sex) : string :=
  match x with male => "male" | female => "female" end.

(** [interface Student] *)
Record Student : Type := {
  id : string;
  name : string;
  class : Z;
  sex : Sex;
  age : Z;
  siblings : Z;
  gpa : string;
}.

(** The identifiers of the records of a list are pairwise distinct. *)
Definition uniqueIds (l : list Student) : Prop := NoDup (id <$> l).

(** [interface CreateStudentRequest]: a Student without its [id]. *)
Record CreateStudentRequest : Type := {
  req_name : string;
  req_class : Z;
  req_sex : Sex;
  req_age : Z;
  req_siblings : Z;
  req_gpa : string;
}.

(** [interface UpdateStudentRequest extends CreateStudentRequest {}] *)
Definition UpdateStudentRequest : Type := CreateStudentRequest.

(** [interface StudentState] *)
Record StudentState : Type := {
  students : list Student;
  recentLookup : option Student;
  loading : bool;
  error : option string;
}.

Inductive SortKey : Type :=
| key_id | key_name | key_class | key_sex | key_age | key_siblings | key_gpa.

Inductive Direction : Type := asc | desc.

(** [interface SortConfig] *)
Record SortConfig : Type := {
  key : SortKey;
  direction : Direction;
}.

(** The type ['male' | 'female' | ''] of [FilterConfig.sex]. *)
Inductive SexChoice : Type :=
| AllGenders              (* the empty string *)
| Only (x : Sex).

(** [interface FilterConfig]: every field is optional ([None] is
    [undefined]); the numbers come from [parseInt]. *)
Record FilterConfig : Type := {
  filter_name : option string;
  filter_class : option Js.integer;
  filter_sex : option SexChoice;
  filter_minAge : option Js.integer;
  filter_maxAge : option Js.integer;
}.

#[global] Instance Sex_eq_dec : EqDecision Sex.
Proof. solve_decision. Defined.

#[global] Instance SortKey_eq_dec : EqDecision SortKey.
Proof. solve_decision. Defined.

#[global] Instance Direction_eq_dec : EqDecision Direction.
Proof. solve_decision. Defined.

(** ** services/studentService.ts: the transform layer *)

(** [gpa: number | string] on the wire. *)
Inductive WireGpa : Type :=
| GpaNumber (n : Js.number)
| GpaString (s : string).

(** [interface BackendStudent] *)
Record BackendStudent : Type := {
  uuid : Z;
  wire_name : string;
  wire_class : Z;
  wire_sex : Sex;
  wire_age : Z;
  wire_siblings : Z;
  wire_gpa : WireGpa;
}.

(** The object [transformStudentToBackend] returns, the body of a create
    or update request. *)
Record BackendPayload : Type := {
  payload_name : string;
  payload_class : Z;
  payload_sex : Sex;
  payload_age : Z;
  payload_siblings : Z;
  payload_gpa : Js.number;
}.

Section Transform.
Context `{Runtime}.

(** [String(backendStudent.gpa)] *)
Definition gpaToString (g : WireGpa) : string :=
  match g with
  | GpaNumber n => numberToString n
  | GpaString s => s
  end.

Definition transformStudentFromBackend (backendStudent : BackendStudent) : Student :=
  {| id := Js.integerToString (uuid backendStudent);
     name := wire_name backendStudent;
     class := wire_class backendStudent;
     sex := wire_sex backendStudent;
     age := wire_age backendStudent;
     siblings := wire_siblings backendStudent;
     gpa := gpaToString (wire_gpa backendStudent) |}.

Definition transformStudentToBackend (studentData : CreateStudentRequest) : BackendPayload :=
  {| payload_name := req_name studentData;
     payload_class := req_class studentData;
     payload_sex := req_sex studentData;
     payload_age := req_age studentData;
     payload_siblings := req_siblings studentData;
     payload_gpa := parseFloat (req_gpa studentData) |}.

End Transform.

(** ** The store client *)

(** The requests the service sends through its axios instance. *)
Inductive Request : Type :=
| GET_students
| GET_student (ident : string)
| POST_student (data : BackendPayload)
| PUT_student (ident : string) (data : BackendPayload)
| DELETE_student (ident : string).

(** The type the service reads [response.data] at; the bodies of an update
    and of a delete are not read. *)
Definition ResponseData (req : Request) : Type :=
  match req with
  | GET_students => list BackendStudent
  | GET_student _ => BackendStudent
  | POST_student _ => Z                (* [{ uuid: number }] *)
  | PUT_student _ _ => unit
  | DELETE_student _ => unit
  end.

(** An [async] function: it has returned, it has thrown, or it is suspended
    at an [await] of a request and resumes with the response or with the
    error the request was rejected with. *)
Inductive Async (A : Type) : Type :=
| Resolved (a : A)
| Rejected (e : Js.Thrown)
| Await (req : Request) (k : Js.Thrown + ResponseData req → Async A).

Arguments Resolved {A} a.
Arguments Rejected {A} e.
Arguments Await {A} req k.

Fixpoint bind {A B : Type} (m : Async A) (f : A → Async B) : Async B :=
  match m with
  | Resolved a => f a
  | Rejected e => Rejected e
  | Await req k => Await req (λ r, bind (k r) f)
  end.

(** [const x = await m; k] *)
Notation "'let*' x ':=' m 'in' k" := (bind m (λ x, k))
  (at level 10, x binder, m at level 100, k at level 200).

(** [await api.get(...)] and the like: outside a [try], a rejected request
    rejects the calling function.  The response interceptor passes the
    response through and re-rejects with the same error. *)
Definition await (req : Request) : Async (ResponseData req) :=
  Await req (λ r, match r with inl e => Rejected e | inr data => Resolved data end).

(** The calls of the service, at the types it declares for [response.data]. *)
Definition api_get_students : Async (list BackendStudent) := await GET_students.
Definition api_get_student (ident : string) : Async BackendStudent :=
  await (GET_student ident).
Definition api_post_student (data : BackendPayload) : Async Z :=
  await (POST_student data).
Definition api_put_student (ident : string) (data : BackendPayload) : Async unit :=
  await (PUT_student ident data).
Definition api_delete_student (ident : string) : Async unit :=
  await (DELETE_student ident).

(** [try { return ok(await m) } catch (error) { return handler(error) }] *)
Fixpoint tryCatch {A B : Type} (m : Async A) (ok : A → B) (handler : Js.Thrown → B) : Async B :=
  match m with
  | Resolved a => Resolved (ok a)
  | Rejected e => Resolved (handler e)
  | Await req k => Await req (λ r, tryCatch (k r) ok handler)
  end.

(** ** services/studentService.ts: the requests *)

Module studentService.
Section Service.
Context `{Runtime}.

Definition getAllStudents : Async (list Student) :=
  let* backendStudents := api_get_students in
  Resolved (transformStudentFromBackend <$> backendStudents).

Definition getStudentById (ident : string) : Async Student :=
  let* backendStudent := api_get_student ident in
  Resolved (transformStudentFromBackend backendStudent).

Definition createStudent (studentData : CreateStudentRequest) : Async Student :=
  let backendData := transformStudentToBackend studentData in
  let* createdUuid := api_post_student backendData in
  getStudentById (Js.integerToString createdUuid).

Definition updateStudent (ident : string) (studentData : UpdateStudentRequest) : Async Student :=
  let backendData := transformStudentToBackend studentData in
  let* _ := api_put_student ident backendData in
  getStudentById ident.

Definition deleteStudent (ident : string) : Async unit :=
  let* _ := api_delete_student ident in
  Resolved tt.

End Service.
End studentService.

(** ** store/studentSlice.ts *)

Module studentSlice.

Definition initialState : StudentState :=
  {| students := []; recentLookup := None; loading := false; error := None |}.

(** The actions of the slice: its two reducers and, for each async thunk,
    the three actions of its lifecycle. *)
Inductive Action : Type :=
| setRecentLookup (payload : Student)
| clearError
| fetchStudents_pending
| fetchStudents_fulfilled (payload : list Student)
| fetchStudents_rejected (payload : string)
| fetchStudentById_pending
| fetchStudentById_fulfilled (payload : Student)
| fetchStudentById_rejected (payload : string)
| createStudent_pending
| createStudent_fulfilled (payload : Student)
| createStudent_rejected (payload : string)
| updateStudent_pending
| updateStudent_fulfilled (payload : Student)
| updateStudent_rejected (payload : string)
| deleteStudent_pending
| deleteStudent_fulfilled (payload : string)
| deleteStudent_rejected (payload : string).

(** [array.findIndex(pred)], with [None] for [-1]. *)
Fixpoint findIndex {A : Type} (pred : A → bool) (l : list A) : option nat :=
  match l with
  | [] => None
  | x :: rest => if pred x then Some O else S <$> findIndex pred rest
  end.

(** [a === b] on strings *)
Definition strictEq (a b : string) : bool := bool_decide (a = b).

Definition set_loading (b : bool) (state : StudentState) : StudentState :=
  {| students := students state; recentLookup := recentLookup state;
     loading := b; error := error state |}.

Definition set_error (e : option string) (state : StudentState) : StudentState :=
  {| students := students state; recentLookup := recentLookup state;
     loading := loading state; error := e |}.

Definition set_students (l : list Student) (state : StudentState) : StudentState :=
  {| students := l; recentLookup := recentLookup state;
     loading := loading state; error := error state |}.

Definition set_recentLookup (r : option Student) (state : StudentState) : StudentState :=
  {| students := students state; recentLookup := r;
     loading := loading state; error := error state |}.

(** The case reducers of [studentSlice], in the order of the source. *)
Definition reducer (state : StudentState) (action : Action) : StudentState :=
  match action with
  | setRecentLookup payload => set_recentLookup (Some payload) state
  | clearError => set_error None state
  (* Fetch students *)
  | fetchStudents_pending => set_error None (set_loading true state)
  | fetchStudents_fulfilled payload => set_students payload (set_loading false state)
  | fetchStudents_rejected payload => set_error (Some payload) (set_loading false state)
  (* Fetch student by ID *)
  | fetchStudentById_pending => set_error None (set_loading true state)
  | fetchStudentById_fulfilled payload =>
      set_recentLookup (Some payload) (set_loading false state)
  | fetchStudentById_rejected payload => set_error (Some payload) (set_loading false state)
  (* Create student *)
  | createStudent_pending => set_error None (set_loading true state)
  | createStudent_fulfilled payload =>
      let state := set_loading false state in
      set_students (students state ++ [payload]) state
  | createStudent_rejected payload => set_error (Some payload) (set_loading false state)
  (* Update student *)
  | updateStudent_pending => set_error None (set_loading true state)
  | updateStudent_fulfilled payload =>
      let state := set_loading false state in
      match findIndex (λ s, strictEq (id s) (id payload)) (students state) with
      | Some index => set_students (<[index := payload]> (students state)) state
      | None => state
      end
  | updateStudent_rejected payload => set_error (Some payload) (set_loading false state)
  (* Delete student *)
  | deleteStudent_pending => set_error None (set_loading true state)
  | deleteStudent_fulfilled payload =>
      let state := set_loading false state in
      set_students (filter (λ s, id s ≠ payload) (students state)) state
  | deleteStudent_rejected payload => set_error (Some payload) (set_loading false state)
  end.

(** [error instanceof Error ? error.message : fallback] *)
Definition errorMessage (e : Js.Thrown) (fallback : string) : string :=
  match e with
  | Js.ErrorObject message => message
  | Js.OtherValue => fallback
  end.

(** What [createAsyncThunk] builds: dispatching the thunk dispatches its
    [pending] action at once, runs the payload creator, and dispatches the
    [fulfilled] action with the value it returns or the [rejected] action
    with the value it passes to [rejectWithValue]. *)
Record AsyncThunk : Type := {
  pendingAction : Action;
  payloadCreator : Async Action;
}.

Section Thunks.
Context `{Runtime}.

Definition fetchStudents : AsyncThunk :=
  {| pendingAction := fetchStudents_pending;
     payloadCreator :=
       tryCatch studentService.getAllStudents fetchStudents_fulfilled
         (λ e, fetchStudents_rejected (errorMessage e "Failed to fetch students")) |}.

Definition fetchStudentById (ident : string) : AsyncThunk :=
  {| pendingAction := fetchStudentById_pending;
     payloadCreator :=
       tryCatch (studentService.getStudentById ident) fetchStudentById_fulfilled
         (λ e, fetchStudentById_rejected (errorMessage e "Failed to fetch student")) |}.

Definition createStudent (studentData : CreateStudentRequest) : AsyncThunk :=
  {| pendingAction := createStudent_pending;
     payloadCreator :=
       tryCatch (studentService.createStudent studentData) createStudent_fulfilled
         (λ e, createStudent_rejected (errorMessage e "Failed to create student")) |}.

Definition updateStudent (ident : string) (studentData : UpdateStudentRequest) : AsyncThunk :=
  {| pendingAction := updateStudent_pending;
     payloadCreator :=
       tryCatch (studentService.updateStudent ident studentData) updateStudent_fulfilled
         (λ e, updateStudent_rejected (errorMessage e "Failed to update student")) |}.

Definition deleteStudent (ident : string) : AsyncThunk :=
  {| pendingAction := deleteStudent_pending;
     payloadCreator :=
       tryCatch (studentService.deleteStudent ident) (λ _, deleteStudent_fulfilled ident)
         (λ e, deleteStudent_rejected (errorMessage e "Failed to delete student")) |}.

End Thunks.
End studentSlice.

(** ** Running the requests against a record store

    The store is any server: a state and, for every request, either the
    error the request is rejected with or the body it is answered with,
    together with the next state.  [requests] records, in order, the
    requests that reached the store. *)

Record Store : Type := {
  Server : Type;
  handle : ∀ req : Request, Server → (Js.Thrown + ResponseData req) * Server;
}.

Record Net (S : Store) : Type := {
  server : Server S;
  requests : list Request;
}.

Arguments server {S} _.
Arguments requests {S} _.

Section Execution.
Context {S : Store}.

(** The request reaches the store and is answered. *)
Definition send (req : Request) (net : Net S) : (Js.Thrown + ResponseData req) * Net S :=
  let '(response, srv) := handle S req (server net) in
  (response, {| server := srv; requests := requests net ++ [req] |}).

(** An async function run to completion, nothing else happening meanwhile. *)
Fixpoint run {A : Type} (m : Async A) (net : Net S) : (Js.Thrown + A) * Net S :=
  match m with
  | Resolved a => (inr a, net)
  | Rejected e => (inl e, net)
  | Await req k => let '(response, net) := send req net in run (k response) net
  end.

(** [await dispatch(thunk)] with no other operation in flight. *)
Definition dispatch (thunk : studentSlice.AsyncThunk)
    (state : StudentState) (net : Net S) : StudentState * Net S :=
  let state := studentSlice.reducer state (studentSlice.pendingAction thunk) in
  match run (studentSlice.payloadCreator thunk) net with
  | (inr action, net) => (studentSlice.reducer state action, net)
  | (inl _, net) => (state, net)
  end.

(** *** Operations in flight together

    Between two awaits an async function runs without interruption, and the
    reducer runs each action in one piece; operations interleave at the
    awaits only.  A task in flight is the rest of a payload creator. *)
Record System : Type := {
  store : StudentState;
  net : Net S;
  inFlight : list (Async studentSlice.Action);
}.

Inductive Event : Type :=
| Dispatch (thunk : studentSlice.AsyncThunk)
| Resume (task : nat).

(** A task that has returned dispatches its action and leaves. *)
Definition settle (i : nat) (task : Async studentSlice.Action) (sys : System) : System :=
  match task with
  | Resolved action =>
      {| store := studentSlice.reducer (store sys) action; net := net sys;
         inFlight := delete i (inFlight sys) |}
  | Rejected _ =>
      {| store := store sys; net := net sys; inFlight := delete i (inFlight sys) |}
  | Await _ _ =>
      {| store := store sys; net := net sys; inFlight := <[i := task]> (inFlight sys) |}
  end.

Definition step (sys : System) (ev : Event) : System :=
  match ev with
  | Dispatch thunk =>
      let i := length (inFlight sys) in
      settle i (studentSlice.payloadCreator thunk)
        {| store := studentSlice.reducer (store sys) (studentSlice.pendingAction thunk);
           net := net sys;
           inFlight := inFlight sys ++ [studentSlice.payloadCreator thunk] |}
  | Resume i =>
      match inFlight sys !! i with
      | Some (Await req k) =>
          let '(response, net') := send req (net sys) in
          settle i (k response)
            {| store := store sys; net := net'; inFlight := inFlight sys |}
      | _ => sys
      end
  end.

Definition schedule (sys : System) (evs : list Event) : System :=
  foldl step sys evs.

End Execution.

Arguments System : clear implicits.

(** ** pages/StudentsPage.tsx *)

Module StudentsPage.

(** [!filters.name || student.name.toLowerCase().includes(filters.name.toLowerCase())] *)
Definition nameMatch (filters : FilterConfig) (student : Student) : bool :=
  match filter_name filters with
  | None => true
  | Some n =>
      negb (Js.truthyString n) ||
      Js.includes (Js.toLowerCase (name student)) (Js.toLowerCase n)
  end.

(** [student.class === filters.class] *)
Definition integerEq (a : Z) (n : Js.integer) : bool :=
  match n with Js.Int z => a =? z | Js.NaNInt => false end.

(** [a >= n] and [a <= n] *)
Definition integerGe (a : Z) (n : Js.integer) : bool :=
  match n with Js.Int z => z <=? a | Js.NaNInt => false end.

Definition integerLe (a : Z) (n : Js.integer) : bool :=
  match n with Js.Int z => a <=? z | Js.NaNInt => false end.

(** [!filters.class || student.class === filters.class] *)
Definition classMatch (filters : FilterConfig) (student : Student) : bool :=
  match filter_class filters with
  | None => true
  | Some c => negb (Js.truthyInteger c) || integerEq (class student) c
  end.

(** [!filters.sex || student.sex === filters.sex] *)
Definition sexMatch (filters : FilterConfig) (student : Student) : bool :=
  match filter_sex filters with
  | None | Some AllGenders => true
  | Some (Only x) => bool_decide (sex student = x)
  end.

(** [(!filters.minAge || student.age >= filters.minAge) &&
     (!filters.maxAge || student.age <= filters.maxAge)] *)
Definition ageMatch (filters : FilterConfig) (student : Student) : bool :=
  match filter_minAge filters with
  | None => true
  | Some m => negb (Js.truthyInteger m) || integerGe (age student) m
  end &&
  match filter_maxAge filters with
  | None => true
  | Some m => negb (Js.truthyInteger m) || integerLe (age student) m
  end.

(** The predicate handed to [students.filter]. *)
Definition passes (filters : FilterConfig) (student : Student) : bool :=
  nameMatch filters student && classMatch filters student &&
  sexMatch filters student && ageMatch filters student.

(** A property of a Student read through a key: a string or a number. *)
Inductive Value : Type :=
| StringValue (s : string)
| NumberValue (n : Z).

(** [student[key]] *)
Definition get (student : Student) (k : SortKey) : Value :=
  match k with
  | key_id => StringValue (id student)
  | key_name => StringValue (name student)
  | key_class => NumberValue (class student)
  | key_sex => StringValue (sexToString (sex student))
  | key_age => NumberValue (age student)
  | key_siblings => NumberValue (siblings student)
  | key_gpa => StringValue (gpa student)
  end.

(** The keys under which a Student holds a number. *)
Definition numberOf (k : SortKey) (student : Student) : option Z :=
  match get student k with
  | NumberValue n => Some n
  | StringValue _ => None
  end.

Section View.
Context `{Runtime}.

(** The comparator handed to [filtered.sort]. *)
Definition compareStudents (sortConfig : SortConfig) (a b : Student) : Z :=
  let aValue := get a (key sortConfig) in
  let bValue := get b (key sortConfig) in
  match aValue, bValue with
  | StringValue aValue, StringValue bValue =>
      match direction sortConfig with
      | asc => localeCompare aValue bValue
      | desc => localeCompare bValue aValue
      end
  | NumberValue aValue, NumberValue bValue =>
      match direction sortConfig with
      | asc => aValue - bValue
      | desc => bValue - aValue
      end
  | _, _ => 0
  end.

(** [Array.prototype.sort] is stable: taken in the order of the array, an
    element goes after the earlier ones the comparator does not put it
    before. *)
Fixpoint insertSorted (cmp : Student → Student → Z) (x : Student) (l : list Student) : list Student :=
  match l with
  | [] => [x]
  | y :: rest => if cmp x y <? 0 then x :: l else y :: insertSorted cmp x rest
  end.

Definition sort (cmp : Student → Student → Z) (l : list Student) : list Student :=
  foldl (λ sorted x, insertSorted cmp x sorted) [] l.

Definition filteredAndSortedStudents (students : list Student)
    (filters : FilterConfig) (sortConfig : SortConfig) : list Student :=
  let filtered := List.filter (passes filters) students in
  sort (compareStudents sortConfig) filtered.

End View.

(** [handleSort(key)] applied to the previous sort configuration. *)
Definition handleSort (prev : SortConfig) (k : SortKey) : SortConfig :=
  {| key := k;
     direction :=
       if bool_decide (key prev = k) && bool_decide (direction prev = asc)
       then desc else asc |}.

(** The fields of the [filters] state. *)
Inductive FilterField : Type :=
| field_name | field_class | field_sex | field_minAge | field_maxAge.

Definition set_name (v : option string) (prev : FilterConfig) : FilterConfig :=
  {| filter_name := v; filter_class := filter_class prev;
     filter_sex := filter_sex prev; filter_minAge := filter_minAge prev;
     filter_maxAge := filter_maxAge prev |}.

Definition set_class (v : option Js.integer) (prev : FilterConfig) : FilterConfig :=
  {| filter_name := filter_name prev; filter_class := v;
     filter_sex := filter_sex prev; filter_minAge := filter_minAge prev;
     filter_maxAge := filter_maxAge prev |}.

Definition set_sex (v : option SexChoice) (prev : FilterConfig) : FilterConfig :=
  {| filter_name := filter_name prev; filter_class := filter_class prev;
     filter_sex := v; filter_minAge := filter_minAge prev;
     filter_maxAge := filter_maxAge prev |}.

Definition set_minAge (v : option Js.integer) (prev : FilterConfig) : FilterConfig :=
  {| filter_name := filter_name prev; filter_class := filter_class prev;
     filter_sex := filter_sex prev; filter_minAge := v;
     filter_maxAge := filter_maxAge prev |}.

Definition set_maxAge (v : option Js.integer) (prev : FilterConfig) : FilterConfig :=
  {| filter_name := filter_name prev; filter_class := filter_class prev;
     filter_sex := filter_sex prev; filter_minAge := filter_minAge prev;
     filter_maxAge := v |}.

(** [handleFilterChange(field, '')]: an emptied input makes the field
    [undefined]. *)
Definition clearFilterField (field : FilterField) (prev : FilterConfig) : FilterConfig :=
  match field with
  | field_name => set_name None prev
  | field_class => set_class None prev
  | field_sex => set_sex None prev
  | field_minAge => set_minAge None prev
  | field_maxAge => set_maxAge None prev
  end.

(** The predicate a field holds, if it holds one: the tests [!filters.name],
    [!filters.class], ... take an [undefined] or falsy field for none. *)
Definition namePredicate (filters : FilterConfig) : option string :=
  match filter_name filters with
  | Some n => if Js.truthyString n then Some n else None
  | None => None
  end.

Definition integerPredicate (v : option Js.integer) : option Z :=
  match v with
  | Some n => if Js.truthyInteger n then
                match n with Js.Int z => Some z | Js.NaNInt => None end
              else None
  | None => None
  end.

Definition sexPredicate (filters : FilterConfig) : option Sex :=
  match filter_sex filters with
  | Some (Only x) => Some x
  | Some AllGenders | None => None
  end.

(** The initial [filters] state, also what [clearFilters] sets. *)
Definition noFilters : FilterConfig :=
  {| filter_name := Some ""; filter_class := None; filter_sex := Some AllGenders;
     filter_minAge := None; filter_maxAge := None |}.

Section Handlers.
Context `{Runtime} {S : Store}.

(** [handleFormSubmit(studentData)], given the student being edited. *)
Definition handleFormSubmit (editingStudent : option Student)
    (studentData : CreateStudentRequest)
    (state : StudentState) (net : Net S) : StudentState * Net S :=
  match editingStudent with
  | Some student => dispatch (studentSlice.updateStudent (id student) studentData) state net
  | None => dispatch (studentSlice.createStudent studentData) state net
  end.

End Handlers.
End StudentsPage.

(** ** components/StudentForm.tsx *)

Module StudentForm.

(** The [errors] object, a [Partial<CreateStudentRequest>] of messages. *)
Record Errors : Type := {
  err_name : option string;
  err_class : option string;
  err_sex : option string;
  err_age : option string;
  err_siblings : option string;
  err_gpa : option string;
}.

Definition keyIfSet (k : string) (message : option string) : list string :=
  match message with Some _ => [k] | None => [] end.

(** [Object.keys(errors)] *)
Definition keys (errors : Errors) : list string :=
  keyIfSet "name" (err_name errors) ++
  keyIfSet "class" (err_class errors) ++
  keyIfSet "sex" (err_sex errors) ++
  keyIfSet "age" (err_age errors) ++
  keyIfSet "siblings" (err_siblings errors) ++
  keyIfSet "gpa" (err_gpa errors).

(** A number below 0 or above 10. *)
Definition outsideGpaRange (n : Js.number) : Prop :=
  match n with
  | Js.NaN => False
  | Js.Infinity _ => True
  | Js.Finite q => (q < 0 ∨ 10 < q)%Q
  end.

Section Form.
Context `{Runtime}.

(** The [newErrors] object [validateForm] builds. *)
Definition newErrors (formData : CreateStudentRequest) : Errors :=
  {| err_name :=
       if negb (Js.truthyString (Js.trim (req_name formData)))
       then Some "Name is required" else None;
     err_class :=
       if (req_class formData <? 1) || (req_class formData >? 12)
       then Some "Class must be between 1 and 12" else None;
     err_sex := None;
     err_age :=
       if (req_age formData <? 1) || (req_age formData >? 100)
       then Some "Age must be between 1 and 100" else None;
     err_siblings :=
       if (req_siblings formData <? 0) || (req_siblings formData >? 20)
       then Some "Siblings must be between 0 and 20" else None;
     err_gpa :=
       if negb (Js.truthyString (Js.trim (req_gpa formData)))
       then Some "GPA is required"
       else
         let gpaNum := parseFloat (req_gpa formData) in
         if Js.isNaN gpaNum || Js.ltb gpaNum (Js.ofZ 0) || Js.gtb gpaNum (Js.ofZ 10)
         then Some "GPA must be a number between 0 and 10" else None |}.

(** [validateForm()]: [Object.keys(newErrors).length === 0] *)
Definition validateForm (formData : CreateStudentRequest) : bool :=
  bool_decide (length (keys (newErrors formData)) = 0%nat).

(** [handleSubmit]: [if (validateForm()) { onSubmit(formData) }], where
    [onSubmit] acts on the world [W] outside the form. *)
Definition handleSubmit {W : Type}
    (onSubmit : CreateStudentRequest → W → W)
    (formData : CreateStudentRequest) (world : W) : W :=
  if validateForm formData then onSubmit formData world else world.

End Form.
End StudentForm.

(** The form as the page mounts it:
    [<StudentForm onSubmit={handleFormSubmit} student={editingStudent} />]. *)
Definition submitStudentForm `{Runtime} {S : Store}
    (editingStudent : option Student) (formData : CreateStudentRequest)
    (world : StudentState * Net S) : StudentState * Net S :=
  StudentForm.handleSubmit
    (λ studentData w, StudentsPage.handleFormSubmit editingStudent studentData w.1 w.2)
    formData world.

(** ** A reference runtime

    An instance of the built-ins to evaluate the sources with: code-unit
    order for [localeCompare] (the order of every locale on strings of
    digits, and on words with the same capitalisation), the exact value of
    the decimal literal for [parseFloat] and the decimal expansion for
    [String(n)] (what an engine computes for literals and numbers of a few
    digits). *)

Module ReferenceRuntime.

Definition localeCompare (a b : string) : Z :=
  match String.compare a b with
  | Lt => -1
  | Eq => 0
  | Gt => 1
  end.

(** DecimalDigits: the digits read extend [acc]; also their count and the
    rest of the input. *)
Fixpoint readDigits (s : string) (acc : Z) (count : nat) : Z * nat * string :=
  match s with
  | String c rest =>
      match Ascii.is_nat c with
      | Some d => readDigits rest (10 * acc + Z.of_nat d) (Datatypes.S count)
      | None => (acc, count, s)
      end
  | EmptyString => (acc, count, s)
  end.

Definition readSign (s : string) : bool * string :=
  match s with
  | String "-" rest => (true, rest)
  | String "+" rest => (false, rest)
  | _ => (false, s)
  end.

(** ExponentPart, read only when a digit follows the indicator and sign. *)
Definition readExponent (s : string) : Z :=
  match s with
  | String ("e" | "E") rest =>
      let '(negative, rest) := readSign rest in
      let '(e, count, _) := readDigits rest 0 0 in
      if negative then - e else e
  | _ => 0
  end.

(** [m * 10 ^ e] *)
Definition scale (m e : Z) : Q :=
  if 0 <=? e then inject_Z (m * 10 ^ e) else Qmake m (Z.to_pos (10 ^ (- e))).

(** The longest prefix of the input, leading white space skipped, that is
    a StrDecimalLiteral. *)
Definition parseFloat (input : string) : Js.number :=
  let '(negative, s) := readSign (Js.trimStart input) in
  if Js.startsWith s "Infinity" then Js.Infinity negative
  else
    let '(int, intCount, s) := readDigits s 0 0 in
    let '(mantissa, fracCount, s) :=
      match s with
      | String "." rest => readDigits rest int 0
      | _ => (int, O, s)
      end in
    if bool_decide ((intCount + fracCount)%nat = O) then Js.NaN
    else
      let q := scale mantissa (readExponent s - Z.of_nat fracCount) in
      Js.Finite (if negative then Qopp q else q).

(** The first digits of [num / den], for [0 <= num < den]. *)
Fixpoint fractionDigits (fuel : nat) (num den : Z) : string :=
  match fuel with
  | O => ""
  | Datatypes.S fuel =>
      if num =? 0 then ""
      else pretty (10 * num / den) +:+ fractionDigits fuel ((10 * num) `mod` den) den
  end.

Definition numberToString (n : Js.number) : string :=
  match n with
  | Js.NaN => "NaN"
  | Js.Infinity negative => if negative then "-Infinity" else "Infinity"
  | Js.Finite q =>
      let den := Z.pos (Qden q) in
      let a := Z.abs (Qnum q) in
      (if Qnum q <? 0 then "-" else "") +:+ pretty (a / den) +:+
      (if a `mod` den =? 0 then "" else "." +:+ fractionDigits 17 (a `mod` den) den)
  end.

#[export] Instance runtime : Runtime :=
  {| Js.localeCompare := localeCompare;
     Js.parseFloat := parseFloat;
     Js.numberToString := numberToString |}.

End ReferenceRuntime.

(** ** A record store

    The REST service behind [/api] is not part of the front-end sources.
    This one follows its description in the specification (section 6): rows
    live in a table keyed by an auto-increment integer; a request for an
    identifier that has no row is answered with status 404, which axios
    turns into a rejection. *)

Module MemoryStore.

Record Table : Type := {
  rows : list BackendStudent;
  nextUuid : Z;
}.

Definition notFound : Js.Thrown :=
  Js.ErrorObject "Request failed with status code 404".

Definition hasIdent (ident : string) (row : BackendStudent) : bool :=
  bool_decide (Js.integerToString (uuid row) = ident).

Definition rowOf (u : Z) (data : BackendPayload) : BackendStudent :=
  {| uuid := u;
     wire_name := payload_name data;
     wire_class := payload_class data;
     wire_sex := payload_sex data;
     wire_age := payload_age data;
     wire_siblings := payload_siblings data;
     wire_gpa := GpaNumber (payload_gpa data) |}.

(** Modelled from the spec: the answers of the Record Store to the five
    requests of its REST surface (list, get one, create, update, delete). *)
Definition handle (req : Request) (t : Table) : (Js.Thrown + ResponseData req) * Table :=
  match req as r return (Js.Thrown + ResponseData r) * Table with
  | GET_students => (inr (rows t), t)
  | GET_student ident =>
      match List.find (hasIdent ident) (rows t) with
      | Some row => (inr row, t)
      | None => (inl notFound, t)
      end
  | POST_student data =>
      (inr (nextUuid t),
       {| rows := rows t ++ [rowOf (nextUuid t) data]; nextUuid := nextUuid t + 1 |})
  | PUT_student ident data =>
      match List.find (hasIdent ident) (rows t) with
      | Some _ =>
          (inr tt,
           {| rows := (λ row, if hasIdent ident row then rowOf (uuid row) data else row)
                        <$> rows t;
              nextUuid := nextUuid t |})
      | None => (inl notFound, t)
      end
  | DELETE_student ident =>
      match List.find (hasIdent ident) (rows t) with
      | Some _ =>
          (inr tt,
           {| rows := List.filter (λ row, negb (hasIdent ident row)) (rows t);
              nextUuid := nextUuid t |})
      | None => (inl notFound, t)
      end
  end.

Definition store : Store := Build_Store Table handle.

Definition start (t : Table) : Net store := Build_Net store t [].

End MemoryStore.


(** ** The operations of the data view state

    The five operations on the view state are the five thunks of the
    slice, awaited. *)

Inductive Operation : Type :=
| LoadAll
| LoadOne (ident : string)
| Create (draft : CreateStudentRequest)
| Update (ident : string) (draft : UpdateStudentRequest)
| Delete (ident : string).

Section Operations.
Context `{Runtime} {S : Store}.

Definition thunkOf (op : Operation) : studentSlice.AsyncThunk :=
  match op with
  | LoadAll => studentSlice.fetchStudents
  | LoadOne ident => studentSlice.fetchStudentById ident
  | Create draft => studentSlice.createStudent draft
  | Update ident draft => studentSlice.updateStudent ident draft
  | Delete ident => studentSlice.deleteStudent ident
  end.

Definition perform (op : Operation) (state : StudentState) (net : Net S) :
    StudentState * Net S :=
  dispatch (thunkOf op) state net.

(** The service call behind the operation is rejected with [e], leaving
    the network at [net']. *)
Definition requestFailed (op : Operation) (net : Net S)
    (e : Js.Thrown) (net' : Net S) : Prop :=
  match op with
  | LoadAll => run studentService.getAllStudents net = (inl e, net')
  | LoadOne ident => run (studentService.getStudentById ident) net = (inl e, net')
  | Create draft => run (studentService.createStudent draft) net = (inl e, net')
  | Update ident draft =>
      run (studentService.updateStudent ident draft) net = (inl e, net')
  | Delete ident => run (studentService.deleteStudent ident) net = (inl e, net')
  end.

(** The message the thunk of the operation falls back to. *)
Definition fallbackMessage (op : Operation) : string :=
  match op with
  | LoadAll => "Failed to fetch students"
  | LoadOne _ => "Failed to fetch student"
  | Create _ => "Failed to create student"
  | Update _ _ => "Failed to update student"
  | Delete _ => "Failed to delete student"
  end.

End Operations.

(** ** Sample data *)

Module Sample.
Import ReferenceRuntime.

Definition aliceRow : BackendStudent :=
  {| uuid := 1; wire_name := "Alice"; wire_class := 5; wire_sex := female;
     wire_age := 11; wire_siblings := 1; wire_gpa := GpaString "8.5" |}.

Definition bobRow : BackendStudent :=
  {| uuid := 2; wire_name := "Bob"; wire_class := 5; wire_sex := male;
     wire_age := 12; wire_siblings := 0; wire_gpa := GpaNumber (Js.ofZ 7) |}.

Definition carolRow : BackendStudent :=
  {| uuid := 3; wire_name := "Carol"; wire_class := 6; wire_sex := female;
     wire_age := 13; wire_siblings := 2; wire_gpa := GpaString "10" |}.

Definition alice : Student := transformStudentFromBackend aliceRow.
Definition bob : Student := transformStudentFromBackend bobRow.
Definition carol : Student := transformStudentFromBackend carolRow.

Definition bobDraft : CreateStudentRequest :=
  {| req_name := "Bob"; req_class := 5; req_sex := male; req_age := 12;
     req_siblings := 0; req_gpa := "7.0" |}.

Definition bobEdited : UpdateStudentRequest :=
  {| req_name := "Robert"; req_class := 6; req_sex := male; req_age := 13;
     req_siblings := 0; req_gpa := "9" |}.

(** The store holds Alice only; the next row gets the identifier 2. *)
Definition oneRow : Net MemoryStore.store :=
  MemoryStore.start {| MemoryStore.rows := [aliceRow]; MemoryStore.nextUuid := 2 |}.

Definition threeRows : Net MemoryStore.store :=
  MemoryStore.start
    {| MemoryStore.rows := [aliceRow; bobRow; carolRow]; MemoryStore.nextUuid := 4 |}.

Definition loaded (l : list Student) (lookup : option Student) : StudentState :=
  {| students := l; recentLookup := lookup; loading := false; error := None |}.

(** Bob as the store returns him after the update [Sample.bobEdited]. *)
Definition robert : Student :=
  {| id := "2"; name := "Robert"; class := 6; sex := male; age := 13;
     siblings := 0; gpa := "9" |}.


(** A draft whose gpa starts with a number. *)
Definition gpaWithUnit : CreateStudentRequest :=
  {| req_name := "Dan"; req_class := 5; req_sex := male; req_age := 12;
     req_siblings := 0; req_gpa := "7abc" |}.

(** The filter of property P4 of the specification. *)
Definition filterP4 : FilterConfig :=
  {| filter_name := Some "an"; filter_class := None;
     filter_sex := Some (Only female);
     filter_minAge := Some (Js.Int 10); filter_maxAge := Some (Js.Int 20) |}.

Definition joanna : Student :=
  {| id := "7"; name := "JoANna"; class := 9; sex := female; age := 15;
     siblings := 1; gpa := "9" |}.

End Sample.

(** ** [unwrap] on a dispatched thunk *)

Section Unwrap.
Context {S : Store}.

(** The [rejected] actions of the thunks. *)
Definition isRejected (action : studentSlice.Action) : bool :=
  match action with
  | studentSlice.fetchStudents_rejected _
  | studentSlice.fetchStudentById_rejected _
  | studentSlice.createStudent_rejected _
  | studentSlice.updateStudent_rejected _
  | studentSlice.deleteStudent_rejected _ => true
  | _ => false
  end.

(** The [fulfilled] actions of the thunks. *)
Definition isFulfilled (action : studentSlice.Action) : bool :=
  match action with
  | studentSlice.fetchStudents_fulfilled _
  | studentSlice.fetchStudentById_fulfilled _
  | studentSlice.createStudent_fulfilled _
  | studentSlice.updateStudent_fulfilled _
  | studentSlice.deleteStudent_fulfilled _ => true
  | _ => false
  end.

(** [await dispatch(thunk).unwrap()] with no other operation in flight:
    whether [unwrap] threw (the thunk ended in its [rejected] action), and
    the state and the network afterwards. *)
Definition dispatchUnwrap (thunk : studentSlice.AsyncThunk)
    (state : StudentState) (net : Net S) : bool * (StudentState * Net S) :=
  let state := studentSlice.reducer state (studentSlice.pendingAction thunk) in
  match run (studentSlice.payloadCreator thunk) net with
  | (inr action, net) => (isRejected action, (studentSlice.reducer state action, net))
  | (inl _, net) => (true, (state, net))
  end.

End Unwrap.

(** ** pages/StudentLookupPage.tsx *)

Module StudentLookupPage.

(** The [useState] cells of the page. *)
Record Local : Type := {
  searchId : string;
  searchError : string;
}.

Section Handlers.
Context `{Runtime} {S : Store}.

Definition handleSearch (local : Local) (world : StudentState * Net S) :
    Local * (StudentState * Net S) :=
  if negb (Js.truthyString (Js.trim (searchId local)))
  then ({| searchId := searchId local;
           searchError := "Please enter a student ID" |}, world)
  else
    let '(threw, world) :=
      dispatchUnwrap (studentSlice.fetchStudentById (Js.trim (searchId local)))
        world.1 world.2 in
    ({| searchId := searchId local;
        searchError :=
          if threw
          then "Student not found. Please check the ID and try again."
          else "" |}, world).

Definition handleInputChange (value : string) (local : Local) : Local :=
  {| searchId := value;
     searchError :=
       if Js.truthyString (searchError local) then "" else searchError local |}.

(** [handleKeyPress]: the Enter key searches. *)
Definition handleKeyPress (pressed : string) (local : Local)
    (world : StudentState * Net S) : Local * (StudentState * Net S) :=
  if bool_decide (pressed = "Enter") then handleSearch local world
  else (local, world).

(** The [disabled] attribute of the Search button. *)
Definition searchDisabled (local : Local) (state : StudentState) : bool :=
  loading state || negb (Js.truthyString (Js.trim (searchId local))).

End Handlers.
End StudentLookupPage.

(** ** pages/StudentsPage.tsx: the dialogs *)

Module StudentsPageDialogs.

(** The [useState] cells of the page that drive the form and the delete
    confirmation. *)
Record Local : Type := {
  showForm : bool;
  editingStudent : option Student;
  deleteConfirm : option Student;
}.

Definition handleAddStudent (local : Local) : Local :=
  {| showForm := true; editingStudent := None;
     deleteConfirm := deleteConfirm local |}.

Definition handleEditStudent (student : Student) (local : Local) : Local :=
  {| showForm := true; editingStudent := Some student;
     deleteConfirm := deleteConfirm local |}.

Definition handleDeleteStudent (student : Student) (local : Local) : Local :=
  {| showForm := showForm local; editingStudent := editingStudent local;
     deleteConfirm := Some student |}.

(** The [onClose] of the form. *)
Definition closeForm (local : Local) : Local :=
  {| showForm := false; editingStudent := None;
     deleteConfirm := deleteConfirm local |}.

(** The Cancel button of the confirmation: [setDeleteConfirm(null)]. *)
Definition cancelDelete (local : Local) : Local :=
  {| showForm := showForm local; editingStudent := editingStudent local;
     deleteConfirm := None |}.

(** The arrow next to a column title. *)
Inductive SortIndicator : Type :=
| BothWays        (* the up-down arrow *)
| Up              (* the upwards arrow *)
| Down.           (* the downwards arrow *)

Definition getSortIndicator (sortConfig : SortConfig) (column : SortKey) : SortIndicator :=
  if negb (bool_decide (key sortConfig = column)) then BothWays
  else match direction sortConfig with asc => Up | desc => Down end.

Section Handlers.
Context `{Runtime} {S : Store}.

Definition confirmDelete (local : Local) (world : StudentState * Net S) :
    Local * (StudentState * Net S) :=
  match deleteConfirm local with
  | Some student =>
      (cancelDelete local,
       dispatch (studentSlice.deleteStudent (id student)) world.1 world.2)
  | None => (local, world)
  end.

(** [handleFormSubmit] with the cells it sets: the form closes when
    [unwrap] does not throw. *)
Definition handleFormSubmit (studentData : CreateStudentRequest)
    (local : Local) (world : StudentState * Net S) : Local * (StudentState * Net S) :=
  let '(threw, world) :=
    match editingStudent local with
    | Some student =>
        dispatchUnwrap (studentSlice.updateStudent (id student) studentData)
          world.1 world.2
    | None => dispatchUnwrap (studentSlice.createStudent studentData) world.1 world.2
    end in
  (if threw then local else closeForm local, world).

(** The submit of the form the page mounts with
    [onSubmit={handleFormSubmit}]. *)
Definition submitForm (formData : CreateStudentRequest)
    (local : Local) (world : StudentState * Net S) : Local * (StudentState * Net S) :=
  StudentForm.handleSubmit
    (λ studentData w, handleFormSubmit studentData w.1 w.2) formData (local, world).

End Handlers.
End StudentsPageDialogs.

(** ** The field constraints in the words of the specification

    The specification lists the drafts that fail a field constraint; for
    the gpa these are the texts that are "empty, non-numeric, or whose
    parsed value lies outside [0,10]".  The definitions below follow that
    wording, to be compared with what [StudentForm.validateForm] tests. *)

Module FieldConstraints.

(** The rest of the input after an ExponentPart, when it starts with
    one. *)
Definition skipExponent (s : string) : string :=
  match s with
  | String ("e" | "E") rest =>
      let '(_, digits) := ReferenceRuntime.readSign rest in
      let '(_, count, rest) := ReferenceRuntime.readDigits digits 0 0 in
      match count with
      | O => s
      | _ => rest
      end
  | _ => s
  end.

(** Modelled from the spec: a gpa is a "decimal value represented as
    text".  A text is numeric when all of it, the white space around it
    apart, is one decimal numeral: an optional sign, digits with an
    optional fraction part, an optional exponent. *)
Definition numeric (text : string) : bool :=
  let '(_, s) := ReferenceRuntime.readSign (Js.trimStart text) in
  let '(int, intCount, s) := ReferenceRuntime.readDigits s 0 0 in
  let '(_, fracCount, s) :=
    match s with
    | String "." rest => ReferenceRuntime.readDigits rest int 0
    | _ => (int, O, s)
    end in
  negb (bool_decide ((intCount + fracCount)%nat = O)) &&
  Js.allWhiteSpace (skipExponent s).

Section Constraints.
Context `{Runtime}.


End Constraints.
End FieldConstraints.
(** * Properties *)

(** ** Strings *)

Section StringFacts.

Lemma string_app_nil (s : string) : "" +:+ s = s.
Proof. reflexivity. Qed.

Lemma string_app_cons (a : ascii) (s t : string) :
  String a s +:+ t = String a (s +:+ t).
Proof. reflexivity. Qed.

Lemma startsWith_spec (s p : string) :
  Js.startsWith s p = true ↔ ∃ post, s = p +:+ post.
Proof.
  revert s. induction p as [|a p IH]; intros s; simpl.
  - split; [intros _; by exists s | done].
  - destruct s as [|b s].
    + split; [done | intros [post E]; discriminate E].
    + rewrite andb_true_iff, bool_decide_eq_true, IH. split.
      * intros [-> [post ->]]. by exists post.
      * intros [post E]. rewrite string_app_cons in E.
        injection E as -> ->. eauto.
Qed.

(** [includes] is containment as a contiguous substring. *)
Lemma includes_spec (s p : string) :
  Js.includes s p = true ↔ ∃ pre post, s = pre +:+ p +:+ post.
Proof.
  induction s as [|b s IH]; simpl.
  - rewrite orb_false_r, startsWith_spec. split.
    + intros [post E]. by exists "", post.
    + intros [pre [post E]]. destruct pre; [by exists post | discriminate E].
  - rewrite orb_true_iff, IH, startsWith_spec. split.
    + intros [[post E] | [pre [post E]]].
      * by exists "", post.
      * exists (String b pre), post. by rewrite E.
    + intros [pre [post E]]. destruct pre as [|c pre].
      * left. by exists post.
      * right. rewrite string_app_cons in E. injection E as _ E. by exists pre, post.
Qed.

Lemma includes_empty (s : string) : Js.includes s "" = true.
Proof. apply includes_spec. by exists "", s. Qed.

Lemma trimStart_empty (s : string) :
  Js.trimStart s = "" ↔ Js.allWhiteSpace s = true.
Proof.
  induction s as [|c s IH]; simpl; [done|].
  destruct (Js.isWhiteSpace c); simpl; [done|]. split; discriminate.
Qed.

Lemma allWhiteSpace_trimStart (s : string) :
  Js.allWhiteSpace (Js.trimStart s) = Js.allWhiteSpace s.
Proof.
  induction s as [|c s IH]; simpl; [done|].
  destruct (Js.isWhiteSpace c) eqn:E; simpl; [done|]. by rewrite E.
Qed.

Lemma allWhiteSpace_rev_app (s t : string) :
  Js.allWhiteSpace (String.rev_app s t) = Js.allWhiteSpace s && Js.allWhiteSpace t.
Proof.
  revert t. induction s as [|c s IH]; intros t; simpl; [done|].
  rewrite IH. simpl. destruct (Js.isWhiteSpace c), (Js.allWhiteSpace s); done.
Qed.

Lemma rev_app_empty (s t : string) : String.rev_app s t = "" → s = "" ∧ t = "".
Proof.
  revert t. induction s as [|c s IH]; intros t; simpl; [done|].
  intros E. apply IH in E as [_ E]. discriminate E.
Qed.

(** [trim] leaves nothing exactly of the strings made of white space. *)
Lemma trim_empty (s : string) : Js.trim s = "" ↔ Js.allWhiteSpace s = true.
Proof.
  unfold Js.trim, Js.trimEnd, String.rev. split.
  - intros E. apply rev_app_empty in E as [E _].
    apply trimStart_empty in E. rewrite allWhiteSpace_rev_app, andb_true_r in E.
    by rewrite allWhiteSpace_trimStart in E.
  - intros E. apply trimStart_empty in E. by rewrite E.
Qed.

Lemma truthy_trim (s : string) :
  Js.truthyString (Js.trim s) = negb (Js.allWhiteSpace s).
Proof.
  destruct (Js.allWhiteSpace s) eqn:E.
  - apply trim_empty in E. by rewrite E.
  - destruct (Js.trim s) eqn:T; [|done].
    apply trim_empty in T. congruence.
Qed.

End StringFacts.

(** ** Running async functions *)

Section ExecutionFacts.
Context `{Runtime} {S : Store}.

Lemma run_bind {A B : Type} (m : Async A) (f : A → Async B) (net : Net S) :
  run (bind m f) net =
  match run m net with
  | (inr a, net') => run (f a) net'
  | (inl e, net') => (inl e, net')
  end.
Proof.
  revert net. induction m as [a|e|req k IH]; intros net; simpl; [done..|].
  destruct (send req net) as [response net']. apply IH.
Qed.

Lemma run_tryCatch {A B : Type} (m : Async A) (ok : A → B)
    (handler : Js.Thrown → B) (net : Net S) :
  run (tryCatch m ok handler) net =
  match run m net with
  | (inr a, net') => (inr (ok a), net')
  | (inl e, net') => (inr (handler e), net')
  end.
Proof.
  revert net. induction m as [a|e|req k IH]; intros net; simpl; [done..|].
  destruct (send req net) as [response net']. apply IH.
Qed.

Lemma run_await (req : Request) (net : Net S) :
  run (await req) net = send req net.
Proof.
  simpl. destruct (send req net) as [[e|data] net']; done.
Qed.

(** A thunk awaited alone: the pending action, then the action of the
    outcome of its service call. *)
Lemma dispatch_tryCatch {A : Type} (pending : studentSlice.Action) (m : Async A)
    (ok : A → studentSlice.Action) (handler : Js.Thrown → studentSlice.Action)
    (state : StudentState) (net : Net S) :
  dispatch {| studentSlice.pendingAction := pending;
              studentSlice.payloadCreator := tryCatch m ok handler |} state net =
  match run m net with
  | (inr a, net') =>
      (studentSlice.reducer (studentSlice.reducer state pending) (ok a), net')
  | (inl e, net') =>
      (studentSlice.reducer (studentSlice.reducer state pending) (handler e), net')
  end.
Proof.
  unfold dispatch. simpl. rewrite run_tryCatch.
  destruct (run m net) as [[e|a] net']; done.
Qed.

Lemma run_api_get_students (net : Net S) :
  run api_get_students net = send GET_students net.
Proof. exact (run_await GET_students net). Qed.

Lemma run_api_get_student (ident : string) (net : Net S) :
  run (api_get_student ident) net = send (GET_student ident) net.
Proof. exact (run_await (GET_student ident) net). Qed.

Lemma run_api_post_student (data : BackendPayload) (net : Net S) :
  run (api_post_student data) net = send (POST_student data) net.
Proof. exact (run_await (POST_student data) net). Qed.

Lemma run_api_put_student (ident : string) (data : BackendPayload) (net : Net S) :
  run (api_put_student ident data) net = send (PUT_student ident data) net.
Proof. exact (run_await (PUT_student ident data) net). Qed.

Lemma run_api_delete_student (ident : string) (net : Net S) :
  run (api_delete_student ident) net = send (DELETE_student ident) net.
Proof. exact (run_await (DELETE_student ident) net). Qed.

Lemma run_getAllStudents (net : Net S) :
  run studentService.getAllStudents net =
  match send GET_students net with
  | (inr backendStudents, net') =>
      (inr (transformStudentFromBackend <$> backendStudents), net')
  | (inl e, net') => (inl e, net')
  end.
Proof.
  unfold studentService.getAllStudents.
  rewrite run_bind, run_api_get_students.
  destruct (send GET_students net) as [[e|rows] net']; done.
Qed.

Lemma run_getStudentById (ident : string) (net : Net S) :
  run (studentService.getStudentById ident) net =
  match send (GET_student ident) net with
  | (inr backendStudent, net') =>
      (inr (transformStudentFromBackend backendStudent), net')
  | (inl e, net') => (inl e, net')
  end.
Proof.
  unfold studentService.getStudentById.
  rewrite run_bind, run_api_get_student.
  destruct (send (GET_student ident) net) as [[e|row] net']; done.
Qed.

Lemma run_createStudent (studentData : CreateStudentRequest) (net : Net S) :
  run (studentService.createStudent studentData) net =
  match send (POST_student (transformStudentToBackend studentData)) net with
  | (inr createdUuid, net') =>
      run (studentService.getStudentById (Js.integerToString createdUuid)) net'
  | (inl e, net') => (inl e, net')
  end.
Proof.
  unfold studentService.createStudent.
  rewrite run_bind, run_api_post_student.
  destruct (send (POST_student _) net) as [[e|u] net']; done.
Qed.

Lemma run_updateStudent (ident : string) (studentData : UpdateStudentRequest)
    (net : Net S) :
  run (studentService.updateStudent ident studentData) net =
  match send (PUT_student ident (transformStudentToBackend studentData)) net with
  | (inr _, net') => run (studentService.getStudentById ident) net'
  | (inl e, net') => (inl e, net')
  end.
Proof.
  unfold studentService.updateStudent.
  rewrite run_bind, run_api_put_student.
  destruct (send (PUT_student _ _) net) as [[e|u] net']; done.
Qed.

Lemma run_deleteStudent (ident : string) (net : Net S) :
  run (studentService.deleteStudent ident) net =
  match send (DELETE_student ident) net with
  | (inr _, net') => (inr tt, net')
  | (inl e, net') => (inl e, net')
  end.
Proof.
  unfold studentService.deleteStudent.
  rewrite run_bind, run_api_delete_student.
  destruct (send (DELETE_student _) net) as [[e|u] net']; done.
Qed.

(** The rest of a thunk, run alone from a state and a network. *)
Lemma schedule_task_alone (task other : Async studentSlice.Action)
    (state : StudentState) (world : Net S) :
  ∃ n,
    schedule
      (settle 0 task {| store := state; net := world; inFlight := [other] |})
      (replicate n (Resume 0)) =
    match run task world with
    | (inr action, net') =>
        {| store := studentSlice.reducer state action; net := net'; inFlight := [] |}
    | (inl _, net') => {| store := state; net := net'; inFlight := [] |}
    end.
Proof.
  revert other state world.
  induction task as [action|e|req k IH]; intros other state world.
  - by exists 0%nat.
  - by exists 0%nat.
  - cbn [settle run]. destruct (send req world) as [response net'] eqn:Hsend.
    destruct (IH response (Await req k) state net') as [n Hn].
    exists (Datatypes.S n). cbn [replicate schedule foldl step inFlight].
    cbn [insert list_insert lookup list_lookup store net].
    rewrite Hsend. exact Hn.
Qed.

(** With nothing else in flight, the events of one operation (its dispatch
    and the answers to its requests) end in the state [dispatch] computes. *)
Lemma schedule_alone_is_dispatch (thunk : studentSlice.AsyncThunk)
    (state : StudentState) (world : Net S) :
  ∃ n,
    schedule {| store := state; net := world; inFlight := [] |}
      (Dispatch thunk :: replicate n (Resume 0)) =
    {| store := (dispatch thunk state world).1;
       net := (dispatch thunk state world).2;
       inFlight := [] |}.
Proof.
  destruct (schedule_task_alone (studentSlice.payloadCreator thunk)
              (studentSlice.payloadCreator thunk)
              (studentSlice.reducer state (studentSlice.pendingAction thunk)) world)
    as [n Hn].
  exists n. cbn [schedule foldl step inFlight length app store net].
  unfold schedule in Hn. rewrite Hn. unfold dispatch.
  by destruct (run (studentSlice.payloadCreator thunk) world) as [[e|action] net'].
Qed.

Lemma requests_send (req : Request) (net : Net S) :
  requests (send req net).2 = requests net ++ [req].
Proof. unfold send. by destruct (handle S req (server net)). Qed.

End ExecutionFacts.


(** ** Arrays *)

Section ArrayFacts.
Context {A : Type}.
Implicit Types (pred : A → bool) (l pre post : list A).

Lemma findIndex_None pred l :
  studentSlice.findIndex pred l = None ↔ ∀ x, x ∈ l → pred x = false.
Proof.
  induction l as [|y l IH]; simpl.
  - split; [intros _ x Hx; by apply elem_of_nil in Hx | done].
  - destruct (pred y) eqn:E.
    + split; [done|]. intros Hall. rewrite Hall in E; [done | left].
    + rewrite fmap_None, IH. split.
      * intros Hall x [->|Hx]%elem_of_cons; auto.
      * intros Hall x Hx. apply Hall. by right.
Qed.

(** [findIndex] returns the position of the first element that matches. *)
Lemma findIndex_first pred pre x post :
  (∀ y, y ∈ pre → pred y = false) → pred x = true →
  studentSlice.findIndex pred (pre ++ x :: post) = Some (length pre).
Proof.
  intros Hpre Hx. induction pre as [|y pre IH]; simpl.
  - by rewrite Hx.
  - rewrite (Hpre y) by left. rewrite IH; [done|].
    intros z Hz. apply Hpre. by right.
Qed.

Lemma findIndex_lt pred l i :
  studentSlice.findIndex pred l = Some i → (i < length l)%nat.
Proof.
  revert i. induction l as [|y l IH]; intros i; simpl; [done|].
  destruct (pred y).
  - intros [= <-]. lia.
  - destruct (studentSlice.findIndex pred l) as [j|]; [|done].
    intros [= <-]. specialize (IH j eq_refl). lia.
Qed.

Lemma insert_first_match pre x x' post :
  <[length pre := x']> (pre ++ x :: post) = pre ++ x' :: post.
Proof.
  replace (length pre) with (length pre + 0)%nat by lia.
  by rewrite insert_app_r.
Qed.

End ArrayFacts.

Section ArrayFacts2.
Context {A : Type}.

Lemma findIndex_Some (pred : A → bool) (l : list A) (i : nat) :
  studentSlice.findIndex pred l = Some i → ∃ x, l !! i = Some x ∧ pred x = true.
Proof.
  revert i. induction l as [|y l IH]; intros i; simpl; [done|].
  destruct (pred y) eqn:E.
  - intros [= <-]. eauto.
  - destruct (studentSlice.findIndex pred l) as [j|]; [|done].
    intros [= <-]. apply (IH j eq_refl).
Qed.

Lemma findIndex_split (pred : A → bool) (l : list A) (i : nat) :
  studentSlice.findIndex pred l = Some i →
  ∃ pre x post,
    l = pre ++ x :: post ∧ length pre = i ∧ pred x = true ∧
    ∀ y, y ∈ pre → pred y = false.
Proof.
  revert i. induction l as [|y l IH]; intros i; simpl; [done|].
  destruct (pred y) eqn:Hy.
  - intros [= <-]. exists [], y, l. split_and!; [done..|].
    intros ? []%elem_of_nil.
  - destruct (studentSlice.findIndex pred l) as [j|]; [|done].
    intros [= <-]. destruct (IH j eq_refl) as (pre & x & post & -> & <- & Hx & Hpre).
    exists (y :: pre), x, post. split_and!; [done..|].
    intros z [->|Hz]%elem_of_cons; auto.
Qed.

End ArrayFacts2.
(** ** The slice *)

Section SliceFacts.
Context `{Runtime} {S : Store}.

(** C4. Every operation that fails with a rejected request ends with
    [error] set to the message of the rejection and [loading] false, and
    with [students] and [recentLookup] as they were before the call. *)
Theorem failed_operation_keeps_records (op : Operation) (state : StudentState)
    (net net' : Net S) (e : Js.Thrown) :
  requestFailed op net e net' →
  perform op state net =
    ({| students := students state;
        recentLookup := recentLookup state;
        loading := false;
        error := Some (studentSlice.errorMessage e (fallbackMessage op)) |}, net').
Proof.
  intros Hfail. unfold perform.
  destruct op; cbn [requestFailed] in Hfail; cbn [thunkOf];
    unfold studentSlice.fetchStudents, studentSlice.fetchStudentById,
      studentSlice.createStudent, studentSlice.updateStudent,
      studentSlice.deleteStudent;
    rewrite dispatch_tryCatch, Hfail; reflexivity.
Qed.



(** C5. With [recentLookup = R], a delete of [R]'s identifier that
    succeeds leaves [recentLookup] equal to [R] and removes from
    [students] the elements with that identifier, and only them: [R] is
    no longer in the list. *)
Theorem delete_keeps_recentLookup (state : StudentState) (R : Student)
    (net net' : Net S) :
  recentLookup state = Some R →
  run (studentService.deleteStudent (id R)) net = (inr tt, net') →
  let state' := (perform (Delete (id R)) state net).1 in
  recentLookup state' = Some R ∧
  students state' = filter (λ s, id s ≠ id R) (students state) ∧
  (∀ s, s ∈ students state' ↔ s ∈ students state ∧ id s ≠ id R) ∧
  R ∉ students state'.
Proof.
  intros HR Hrun. unfold perform. cbn [thunkOf].
  unfold studentSlice.deleteStudent. rewrite dispatch_tryCatch, Hrun.
  cbn. split_and!; [done | done | | ].
  - intros s. rewrite list_elem_of_filter. tauto.
  - rewrite list_elem_of_filter. tauto.
Qed.

(** C2. An update that succeeds with the re-fetched record [B'] puts [B']
    at the position of the element of [students] that has its identifier
    and leaves every other element where it was; when no element has the
    identifier the list stays as it is.  The length never changes. *)
Theorem update_replaces_in_place (state : StudentState) (ident : string)
    (draft : UpdateStudentRequest) (B' : Student) (net net' : Net S) :
  run (studentService.updateStudent ident draft) net = (inr B', net') →
  id B' = ident →
  let state' := (perform (Update ident draft) state net).1 in
  (∀ pre B post,
     students state = pre ++ B :: post → id B = ident →
     (∀ x, x ∈ pre → id x ≠ ident) →
     students state' = pre ++ B' :: post) ∧
  ((∀ x, x ∈ students state → id x ≠ ident) → students state' = students state) ∧
  length (students state') = length (students state).
Proof.
  intros Hrun Hid. unfold perform. cbn [thunkOf].
  unfold studentSlice.updateStudent. rewrite dispatch_tryCatch, Hrun.
  cbn. split_and!.
  - intros pre B post Hl HB Hpre. rewrite Hl.
    rewrite (findIndex_first _ pre B post).
    + cbn. apply insert_first_match.
    + intros y Hy. apply bool_decide_eq_false. rewrite Hid. auto.
    + apply bool_decide_eq_true. congruence.
  - intros Hnone.
    assert (studentSlice.findIndex
              (λ s, studentSlice.strictEq (id s) (id B')) (students state) = None) as ->;
      [|done].
    apply findIndex_None. intros x Hx.
    apply bool_decide_eq_false. rewrite Hid. auto.
  - destruct (studentSlice.findIndex _ (students state)); cbn; [|done].
    apply length_insert.
Qed.

(** C3. A create sends the transformed draft in a POST, is answered with
    the new identifier alone, then fetches the record with that identifier;
    the fetched record is appended to [students] when this second request
    succeeds, and when it fails the operation fails and [students] stays as
    it was.  A failed POST sends nothing more. *)
Theorem create_appends_fetched_record (state : StudentState)
    (draft : CreateStudentRequest) (net : Net S) :
  let world' := perform (Create draft) state net in
  (∀ e net1,
     send (POST_student (transformStudentToBackend draft)) net = (inl e, net1) →
     world' =
       ({| students := students state; recentLookup := recentLookup state;
           loading := false;
           error := Some (studentSlice.errorMessage e "Failed to create student") |},
        net1) ∧
     requests net1 = requests net ++ [POST_student (transformStudentToBackend draft)]) ∧
  (∀ createdUuid net1 response net2,
     send (POST_student (transformStudentToBackend draft)) net = (inr createdUuid, net1) →
     send (GET_student (Js.integerToString createdUuid)) net1 = (response, net2) →
     requests net2 =
       requests net ++ [POST_student (transformStudentToBackend draft);
                        GET_student (Js.integerToString createdUuid)] ∧
     match response with
     | inr row =>
         world' =
           ({| students := students state ++ [transformStudentFromBackend row];
               recentLookup := recentLookup state;
               loading := false;
               error := None |}, net2)
     | inl e =>
         world' =
           ({| students := students state; recentLookup := recentLookup state;
               loading := false;
               error := Some (studentSlice.errorMessage e "Failed to create student") |},
            net2)
     end) ∧
  ((∃ record, students world'.1 = students state ++ [record]) ↔
   ∃ createdUuid net1 row net2,
     send (POST_student (transformStudentToBackend draft)) net = (inr createdUuid, net1) ∧
     send (GET_student (Js.integerToString createdUuid)) net1 = (inr row, net2)).
Proof.
  unfold perform. cbn [thunkOf]. unfold studentSlice.createStudent.
  rewrite dispatch_tryCatch, run_createStudent.
  pose proof (requests_send (POST_student (transformStudentToBackend draft)) net) as Hlog1.
  destruct (send (POST_student (transformStudentToBackend draft)) net)
    as [[e|createdUuid] net1] eqn:Hpost; cbn zeta.
  - split_and!.
    + intros e' net1' [= <- <-]. done.
    + intros ???? [=].
    + split.
      * intros [record Hrec]. cbn in Hrec.
        apply (f_equal length) in Hrec. rewrite length_app in Hrec. simpl in Hrec. lia.
      * intros (?&?&?&?&[=]&_).
  - rewrite run_getStudentById.
    pose proof (requests_send (GET_student (Js.integerToString createdUuid)) net1) as Hlog2.
    destruct (send (GET_student (Js.integerToString createdUuid)) net1)
      as [[e|row] net2] eqn:Hget.
    + split_and!.
      * intros ?? [=].
      * intros u n1 response n2 [= <- <-]. rewrite Hget. intros [= <- <-].
        split; [|done]. cbn in Hlog1, Hlog2. rewrite Hlog2, Hlog1, <-app_assoc. done.
      * split.
        -- intros [record Hrec]. cbn in Hrec.
           apply (f_equal length) in Hrec. rewrite length_app in Hrec. simpl in Hrec. lia.
        -- intros (u&n1&r&n2&[= <- <-]&Hget'). rewrite Hget in Hget'. done.
    + split_and!.
      * intros ?? [=].
      * intros u n1 response n2 [= <- <-]. rewrite Hget. intros [= <- <-].
        split; [|done]. cbn in Hlog1, Hlog2. rewrite Hlog2, Hlog1, <-app_assoc. done.
      * split.
        -- intros _. by exists createdUuid, net1, row, net2.
        -- intros _. by eexists.
Qed.

(** *** Distinct identifiers *)

Lemma ids_after_filter (ident : string) (l : list Student) :
  id <$> filter (λ s, id s ≠ ident) l = filter (λ i, i ≠ ident) (id <$> l).
Proof.
  induction l as [|x l IH]; [done|].
  rewrite fmap_cons, !filter_cons. destruct (decide (id x ≠ ident)); [|done].
  by rewrite fmap_cons, IH.
Qed.

(** The list a load answers with has distinct identifiers when the rows of
    the store have distinct keys. *)
Lemma uniqueIds_transform (backendStudents : list BackendStudent) :
  NoDup (uuid <$> backendStudents) →
  uniqueIds (transformStudentFromBackend <$> backendStudents).
Proof.
  intros Hrows. unfold uniqueIds. rewrite <-list_fmap_compose.
  assert (id ∘ transformStudentFromBackend = Js.integerToString ∘ uuid) as -> by done.
  rewrite list_fmap_compose. apply NoDup_fmap_2; [|done].
  unfold Js.integerToString. apply _.
Qed.

(** Every action keeps the identifiers distinct, provided a loaded list has
    distinct identifiers and a created record an identifier that is not
    in the list yet.  The case reducer of [createStudent.fulfilled] does
    not look for the identifier before it pushes the record. *)
Lemma reducer_uniqueIds (state : StudentState) (action : studentSlice.Action) :
  uniqueIds (students state) →
  match action with
  | studentSlice.fetchStudents_fulfilled payload => uniqueIds payload
  | studentSlice.createStudent_fulfilled payload => id payload ∉ id <$> students state
  | _ => True
  end →
  uniqueIds (students (studentSlice.reducer state action)).
Proof.
  unfold uniqueIds. intros Hstate Haction.
  destruct action; cbn; try done.
  - rewrite fmap_app. apply NoDup_app. split_and!; [done| |apply NoDup_singleton].
    intros i Hi [->|[]%elem_of_nil]%elem_of_cons. done.
  - destruct (studentSlice.findIndex _ (students state)) as [i|] eqn:Hfind; cbn; [|done].
    apply findIndex_Some in Hfind as (x & Hx & Heq).
    apply bool_decide_eq_true in Heq.
    rewrite list_fmap_insert, list_insert_id; [done|].
    by rewrite list_lookup_fmap, Hx, <-Heq.
  - rewrite ids_after_filter. by apply NoDup_filter.
Qed.

(** X23. After a load that is answered, [students] is the list of the
    answer, transformed row by row and in its order, whatever the list
    held before; [recentLookup] stays, [error] and [loading] are cleared. *)
Lemma loadAll_replaces_records (state : StudentState) (net net' : Net S)
    (backendStudents : list BackendStudent) :
  send GET_students net = (inr backendStudents, net') →
  perform LoadAll state net =
    ({| students := transformStudentFromBackend <$> backendStudents;
        recentLookup := recentLookup state;
        loading := false;
        error := None |}, net').
Proof.
  intros Hsend. unfold perform. cbn [thunkOf]. unfold studentSlice.fetchStudents.
  by rewrite dispatch_tryCatch, run_getAllStudents, Hsend.
Qed.

(** A create that completes after a load whose answer already held the
    created row leaves the list with that identifier twice. *)
Lemma create_after_load_duplicates (state : StudentState)
    (backendStudents : list BackendStudent) (row : BackendStudent) :
  row ∈ backendStudents →
  ¬ uniqueIds
      (students
         (studentSlice.reducer
            (studentSlice.reducer state
               (studentSlice.fetchStudents_fulfilled
                  (transformStudentFromBackend <$> backendStudents)))
            (studentSlice.createStudent_fulfilled (transformStudentFromBackend row)))).
Proof.
  intros Hrow. unfold uniqueIds. cbn. rewrite fmap_app. rewrite NoDup_app.
  intros (_ & Hdisjoint & _).
  apply (Hdisjoint (id (transformStudentFromBackend row))).
  - apply list_elem_of_fmap_2. by apply list_elem_of_fmap_2.
  - left.
Qed.

(** [recentLookup] is written by a lookup that succeeds and by
    [setRecentLookup], and by no other action. *)
Lemma recentLookup_written_by_lookup_only (state : StudentState)
    (action : studentSlice.Action) :
  match action with
  | studentSlice.setRecentLookup payload
  | studentSlice.fetchStudentById_fulfilled payload =>
      recentLookup (studentSlice.reducer state action) = Some payload
  | _ => recentLookup (studentSlice.reducer state action) = recentLookup state
  end.
Proof.
  destruct action; cbn; try done.
  by destruct (studentSlice.findIndex _ (students state)).
Qed.
End SliceFacts.

(** ** The filter and sort pipeline *)

Section FilterFacts.
Implicit Types (filters : FilterConfig) (student : Student).

Lemma nameMatch_spec filters student :
  StudentsPage.nameMatch filters student = true ↔
  ∀ n, StudentsPage.namePredicate filters = Some n →
       ∃ pre post,
         Js.toLowerCase (name student) = pre +:+ Js.toLowerCase n +:+ post.
Proof.
  unfold StudentsPage.nameMatch, StudentsPage.namePredicate.
  destruct (filter_name filters) as [n|]; [|done].
  destruct (Js.truthyString n); simpl.
  - rewrite includes_spec. split; [by intros ? ? [= <-] | eauto].
  - done.
Qed.

Lemma classMatch_spec filters student :
  StudentsPage.classMatch filters student = true ↔
  ∀ c, StudentsPage.integerPredicate (filter_class filters) = Some c →
       class student = c.
Proof.
  unfold StudentsPage.classMatch, StudentsPage.integerPredicate.
  destruct (filter_class filters) as [[|z]|]; simpl; [done| |done].
  destruct (z =? 0); simpl; [done|].
  rewrite Z.eqb_eq. split; [by intros ? ? [= <-] | eauto].
Qed.

Lemma sexMatch_spec filters student :
  StudentsPage.sexMatch filters student = true ↔
  ∀ x, StudentsPage.sexPredicate filters = Some x → sex student = x.
Proof.
  unfold StudentsPage.sexMatch, StudentsPage.sexPredicate.
  destruct (filter_sex filters) as [[|x]|]; [done| |done].
  rewrite bool_decide_eq_true. split; [by intros ? ? [= <-] | eauto].
Qed.

Lemma ageMatch_spec filters student :
  StudentsPage.ageMatch filters student = true ↔
  (∀ m, StudentsPage.integerPredicate (filter_minAge filters) = Some m →
        m ≤ age student) ∧
  (∀ m, StudentsPage.integerPredicate (filter_maxAge filters) = Some m →
        age student ≤ m).
Proof.
  unfold StudentsPage.ageMatch, StudentsPage.integerPredicate.
  rewrite andb_true_iff.
  assert (∀ (v : option Js.integer) (ok : Z → bool) (P : Z → Prop),
            (∀ z, ok z = true ↔ P z) →
            match v with
            | Some m =>
                negb (Js.truthyInteger m) ||
                match m with Js.Int z => ok z | Js.NaNInt => false end
            | None => true
            end = true ↔
            ∀ m, match v with
                 | Some n => if Js.truthyInteger n
                             then match n with Js.Int z => Some z | Js.NaNInt => None end
                             else None
                 | None => None
                 end = Some m → P m) as Hbound.
  { intros [[|z]|] ok P Hok; simpl; [done| |done].
    destruct (z =? 0); simpl; [done|].
    rewrite Hok. split; [by intros ? ? [= <-] | eauto]. }
  rewrite <-(Hbound (filter_minAge filters) (λ z, z <=? age student) (λ z, z ≤ age student))
    by (intros; apply Z.leb_le).
  rewrite <-(Hbound (filter_maxAge filters) (λ z, age student <=? z) (λ z, age student ≤ z))
    by (intros; apply Z.leb_le).
  unfold StudentsPage.integerGe, StudentsPage.integerLe. done.
Qed.

Lemma passes_clearFilterField filters student (field : StudentsPage.FilterField) :
  StudentsPage.passes filters student = true →
  StudentsPage.passes (StudentsPage.clearFilterField field filters) student = true.
Proof.
  unfold StudentsPage.passes. rewrite !andb_true_iff.
  intros [[[Hname Hclass] Hsex] Hage].
  apply andb_true_iff in Hage as [Hmin Hmax].
  destruct field; cbn [StudentsPage.clearFilterField];
    unfold StudentsPage.ageMatch; rewrite ?andb_true_iff;
    split_and!; done.
Qed.

(** C6. A record passes the filter exactly when it satisfies each
    predicate the filter holds: its name contains the name predicate, both
    in lower case; its class and its sex are the ones asked for; its age
    is at least the lower bound and at most the upper bound, each bound
    constraining its own side.  A field holds a predicate when the test
    [!filters.field] of the page finds a value in it; a field without a
    predicate constrains nothing, and a record that passes still passes
    once a field of the filter is cleared. *)
Theorem passes_iff_every_present_predicate filters student :
  (StudentsPage.passes filters student = true ↔
     (∀ n, StudentsPage.namePredicate filters = Some n →
           ∃ pre post,
             Js.toLowerCase (name student) = pre +:+ Js.toLowerCase n +:+ post) ∧
     (∀ c, StudentsPage.integerPredicate (filter_class filters) = Some c →
           class student = c) ∧
     (∀ x, StudentsPage.sexPredicate filters = Some x → sex student = x) ∧
     (∀ m, StudentsPage.integerPredicate (filter_minAge filters) = Some m →
           m ≤ age student) ∧
     (∀ m, StudentsPage.integerPredicate (filter_maxAge filters) = Some m →
           age student ≤ m)) ∧
  (∀ field,
     StudentsPage.passes filters student = true →
     StudentsPage.passes (StudentsPage.clearFilterField field filters) student = true).
Proof.
  assert (Hiff : StudentsPage.passes filters student = true ↔
     (∀ n, StudentsPage.namePredicate filters = Some n →
           ∃ pre post,
             Js.toLowerCase (name student) = pre +:+ Js.toLowerCase n +:+ post) ∧
     (∀ c, StudentsPage.integerPredicate (filter_class filters) = Some c →
           class student = c) ∧
     (∀ x, StudentsPage.sexPredicate filters = Some x → sex student = x) ∧
     (∀ m, StudentsPage.integerPredicate (filter_minAge filters) = Some m →
           m ≤ age student) ∧
     (∀ m, StudentsPage.integerPredicate (filter_maxAge filters) = Some m →
           age student ≤ m)).
  { unfold StudentsPage.passes. rewrite !andb_true_iff.
    rewrite nameMatch_spec, classMatch_spec, sexMatch_spec, ageMatch_spec. tauto. }
  split; [exact Hiff|]. intros field. apply passes_clearFilterField.
Qed.

(** Clearing a field of the filter can only add rows to the filtered list. *)
Lemma clearFilterField_adds_matches filters (field : StudentsPage.FilterField)
    (l : list Student) student :
  student ∈ List.filter (StudentsPage.passes filters) l →
  student ∈ List.filter
    (StudentsPage.passes (StudentsPage.clearFilterField field filters)) l.
Proof.
  rewrite !list_elem_of_In, !filter_In. intros [Hin Hpass]. split; [done|].
  by apply passes_clearFilterField.
Qed.

(** C10. A field of the filter that holds a falsy value, the empty string
    or the number 0, filters as the field left [undefined] does; with
    [maxAge = 0] and nothing else every record passes, and so with
    [minAge = 0]. *)
Theorem falsy_filter_field_is_absent filters student :
  StudentsPage.passes (StudentsPage.set_name (Some "") filters) student =
    StudentsPage.passes (StudentsPage.set_name None filters) student ∧
  StudentsPage.passes (StudentsPage.set_sex (Some AllGenders) filters) student =
    StudentsPage.passes (StudentsPage.set_sex None filters) student ∧
  StudentsPage.passes (StudentsPage.set_class (Some (Js.Int 0)) filters) student =
    StudentsPage.passes (StudentsPage.set_class None filters) student ∧
  StudentsPage.passes (StudentsPage.set_minAge (Some (Js.Int 0)) filters) student =
    StudentsPage.passes (StudentsPage.set_minAge None filters) student ∧
  StudentsPage.passes (StudentsPage.set_maxAge (Some (Js.Int 0)) filters) student =
    StudentsPage.passes (StudentsPage.set_maxAge None filters) student ∧
  StudentsPage.passes
    (StudentsPage.set_maxAge (Some (Js.Int 0)) StudentsPage.noFilters) student = true ∧
  StudentsPage.passes
    (StudentsPage.set_minAge (Some (Js.Int 0)) StudentsPage.noFilters) student = true.
Proof. split_and!; reflexivity. Qed.

(** [NaN], the other falsy number, filters as [undefined] too. *)
Lemma NaN_filter_field_is_absent filters student :
  StudentsPage.passes (StudentsPage.set_class (Some Js.NaNInt) filters) student =
    StudentsPage.passes (StudentsPage.set_class None filters) student ∧
  StudentsPage.passes (StudentsPage.set_minAge (Some Js.NaNInt) filters) student =
    StudentsPage.passes (StudentsPage.set_minAge None filters) student ∧
  StudentsPage.passes (StudentsPage.set_maxAge (Some Js.NaNInt) filters) student =
    StudentsPage.passes (StudentsPage.set_maxAge None filters) student.
Proof. split_and!; reflexivity. Qed.

End FilterFacts.

(** C7. A sort request on the key [K] gives [{K, desc}] when the current
    key is [K] and the direction ascending; it gives [{K, asc}] when the
    current key is [K] and the direction descending, and when the current
    key is another one.  From [{age, asc}], a request on age gives
    [{age, desc}] and a request on name then gives [{name, asc}]. *)
Theorem handleSort_toggles (prev : SortConfig) (K : SortKey) :
  (key prev = K ∧ direction prev = asc →
     StudentsPage.handleSort prev K = {| key := K; direction := desc |}) ∧
  (key prev = K ∧ direction prev = desc →
     StudentsPage.handleSort prev K = {| key := K; direction := asc |}) ∧
  (key prev ≠ K →
     StudentsPage.handleSort prev K = {| key := K; direction := asc |}) ∧
  StudentsPage.handleSort {| key := key_age; direction := asc |} key_age =
    {| key := key_age; direction := desc |} ∧
  StudentsPage.handleSort
    (StudentsPage.handleSort {| key := key_age; direction := asc |} key_age) key_name =
    {| key := key_name; direction := asc |}.
Proof.
  unfold StudentsPage.handleSort. split_and!; [| | |done..].
  - intros [-> ->]. by rewrite !bool_decide_eq_true_2.
  - intros [-> ->]. by rewrite andb_false_r.
  - intros Hne. by rewrite bool_decide_eq_false_2.
Qed.

Section SortFacts.
Context `{Runtime}.
Implicit Types (a b : Student) (k : SortKey).

Lemma compareStudents_desc k a b :
  StudentsPage.compareStudents {| key := k; direction := desc |} a b =
  StudentsPage.compareStudents {| key := k; direction := asc |} b a.
Proof. unfold StudentsPage.compareStudents. by destruct k. Qed.

(** C8. Under the gpa key the comparator is [localeCompare] on the gpa
    texts, also for records whose gpa was a number on the wire, which are
    compared through their printed form.  Under class, age and siblings
    it is the difference of the numbers, negative exactly when the first
    is the smaller.  Descending compares the two records in the other
    order: for the numeric keys the result is the opposite number, and
    for every key the opposite sign, as [localeCompare] gives opposite
    signs to a pair and to the swapped pair. *)
Theorem gpa_compared_as_text :
  (∀ a b,
     StudentsPage.compareStudents {| key := key_gpa; direction := asc |} a b =
     localeCompare (gpa a) (gpa b)) ∧
  (∀ rowA rowB,
     StudentsPage.compareStudents {| key := key_gpa; direction := asc |}
       (transformStudentFromBackend rowA) (transformStudentFromBackend rowB) =
     localeCompare (gpaToString (wire_gpa rowA)) (gpaToString (wire_gpa rowB))) ∧
  (∀ k a b x y,
     StudentsPage.numberOf k a = Some x → StudentsPage.numberOf k b = Some y →
     StudentsPage.compareStudents {| key := k; direction := asc |} a b = x - y ∧
     (StudentsPage.compareStudents {| key := k; direction := asc |} a b < 0 ↔ x < y) ∧
     StudentsPage.compareStudents {| key := k; direction := desc |} a b = - (x - y)) ∧
  (∀ a,
     StudentsPage.numberOf key_class a = Some (class a) ∧
     StudentsPage.numberOf key_age a = Some (age a) ∧
     StudentsPage.numberOf key_siblings a = Some (siblings a) ∧
     StudentsPage.numberOf key_gpa a = None) ∧
  (∀ k a b,
     StudentsPage.compareStudents {| key := k; direction := desc |} a b =
     StudentsPage.compareStudents {| key := k; direction := asc |} b a) ∧
  ((∀ s t, Z.sgn (localeCompare t s) = - Z.sgn (localeCompare s t)) →
   ∀ k a b,
     Z.sgn (StudentsPage.compareStudents {| key := k; direction := desc |} a b) =
     - Z.sgn (StudentsPage.compareStudents {| key := k; direction := asc |} a b)).
Proof.
  split_and!.
  - done.
  - done.
  - intros k a b x y. unfold StudentsPage.numberOf, StudentsPage.compareStudents.
    cbn [key direction].
    destruct (StudentsPage.get a k); [done|]. destruct (StudentsPage.get b k); [done|].
    intros [= ->] [= ->]. split_and!; lia.
  - done.
  - apply compareStudents_desc.
  - intros Hanti k a b. unfold StudentsPage.compareStudents. cbn [key direction].
    destruct (StudentsPage.get a k) as [s|x], (StudentsPage.get b k) as [t|y].
    + apply Hanti.
    + done.
    + done.
    + rewrite <-Z.sgn_opp. f_equal. lia.
Qed.

End SortFacts.

(** ** The form *)

Section FormFacts.
Context `{Runtime}.

Lemma keys_nil (errors : StudentForm.Errors) :
  StudentForm.keys errors = [] ↔
  StudentForm.err_name errors = None ∧ StudentForm.err_class errors = None ∧
  StudentForm.err_sex errors = None ∧ StudentForm.err_age errors = None ∧
  StudentForm.err_siblings errors = None ∧ StudentForm.err_gpa errors = None.
Proof.
  destruct errors as [[?|] [?|] [?|] [?|] [?|] [?|]]; cbn; split;
    (done || (intros (?&?&?&?&?&?); done)).
Qed.

Lemma gpa_range_test (n : Js.number) :
  Js.isNaN n || Js.ltb n (Js.ofZ 0) || Js.gtb n (Js.ofZ 10) = false ↔
  n ≠ Js.NaN ∧ ¬ StudentForm.outsideGpaRange n.
Proof.
  destruct n as [|[]|q]; cbn.
  - split; [done | by intros [? _]].
  - split; [done | by intros [_ ?]; tauto].
  - split; [done | by intros [_ ?]; tauto].
  - rewrite orb_false_iff, !negb_false_iff, !Qle_bool_iff. split.
    + intros [H0 H10]. split; [done|]. intros [Hlt|Hlt]; by apply Qlt_not_le in Hlt.
    + intros [_ Hin]. split; apply Qnot_lt_le; tauto.
Qed.

Lemma no_message (b : bool) (message : string) :
  (if b then Some message else None) = None ↔ b = false.
Proof. by destruct b. Qed.

Lemma out_of_range_test (x lo hi : Z) :
  (x <? lo) || (x >? hi) = false ↔ lo ≤ x ≤ hi.
Proof. rewrite orb_false_iff, Z.ltb_ge, Z.gtb_ltb, Z.ltb_ge. done. Qed.

Lemma err_gpa_None (formData : CreateStudentRequest) :
  StudentForm.err_gpa (StudentForm.newErrors formData) = None ↔
  Js.allWhiteSpace (req_gpa formData) = false ∧
  parseFloat (req_gpa formData) ≠ Js.NaN ∧
  ¬ StudentForm.outsideGpaRange (parseFloat (req_gpa formData)).
Proof.
  cbn [StudentForm.newErrors StudentForm.err_gpa]. rewrite truthy_trim, negb_involutive.
  destruct (Js.allWhiteSpace (req_gpa formData)).
  - split; [done | by intros [? _]].
  - rewrite no_message, gpa_range_test. tauto.
Qed.

(** The drafts the form lets through. *)
Lemma validateForm_true (formData : CreateStudentRequest) :
  StudentForm.validateForm formData = true ↔
  Js.allWhiteSpace (req_name formData) = false ∧
  1 ≤ req_class formData ≤ 12 ∧
  1 ≤ req_age formData ≤ 100 ∧
  0 ≤ req_siblings formData ≤ 20 ∧
  Js.allWhiteSpace (req_gpa formData) = false ∧
  parseFloat (req_gpa formData) ≠ Js.NaN ∧
  ¬ StudentForm.outsideGpaRange (parseFloat (req_gpa formData)).
Proof.
  unfold StudentForm.validateForm.
  rewrite bool_decide_eq_true, length_zero_iff_nil, keys_nil, err_gpa_None.
  cbn [StudentForm.newErrors StudentForm.err_name StudentForm.err_class
       StudentForm.err_sex StudentForm.err_age StudentForm.err_siblings].
  rewrite !no_message, !out_of_range_test, truthy_trim, negb_false_iff, negb_true_iff.
  intuition.
Qed.

Context {S : Store}.


(** A draft the form lets through is handed to the page, which dispatches
    the create or the update. *)
Lemma valid_draft_is_submitted (editingStudent : option Student)
    (draft : CreateStudentRequest) (state : StudentState) (net : Net S) :
  StudentForm.validateForm draft = true →
  submitStudentForm editingStudent draft (state, net) =
  match editingStudent with
  | Some student => perform (Update (id student) draft) state net
  | None => perform (Create draft) state net
  end.
Proof.
  intros Hvalid. unfold submitStudentForm, StudentForm.handleSubmit.
  rewrite Hvalid. done.
Qed.

End FormFacts.

(** ** More on the operations *)

Ltac open_perform :=
  unfold perform; cbn [thunkOf];
  unfold studentSlice.fetchStudents, studentSlice.fetchStudentById,
    studentSlice.createStudent, studentSlice.updateStudent,
    studentSlice.deleteStudent;
  rewrite dispatch_tryCatch.

Ltac idle_case :=
  split; [done|]; split;
  [ first [ done | intros _ (?&?&[=]) ]
  | first [ done | intros Hno; destruct Hno; eauto ] ].

Section OperationFacts.
Context `{Runtime} {S : Store}.
Implicit Types (state : StudentState) (net : Net S) (op : Operation).

(** X1. An update sends the PUT with the transformed draft and, when the
    PUT is answered, a GET for the same identifier and nothing else; a
    rejected PUT is followed by no request and leaves the list as it is. *)
Theorem update_refetches_after_put state (ident : string)
    (draft : UpdateStudentRequest) net :
  let world' := perform (Update ident draft) state net in
  (∀ e net1,
     send (PUT_student ident (transformStudentToBackend draft)) net = (inl e, net1) →
     requests world'.2 =
       requests net ++ [PUT_student ident (transformStudentToBackend draft)] ∧
     students world'.1 = students state) ∧
  (∀ r net1,
     send (PUT_student ident (transformStudentToBackend draft)) net = (inr r, net1) →
     requests world'.2 =
       requests net ++ [PUT_student ident (transformStudentToBackend draft);
                        GET_student ident]).
Proof.
  open_perform. rewrite run_updateStudent.
  pose proof (requests_send (PUT_student ident (transformStudentToBackend draft)) net)
    as Hput.
  destruct (send (PUT_student ident (transformStudentToBackend draft)) net)
    as [[e|r] net1]; cbn zeta.
  - split; [|intros ?? [=]]. intros ?? [= <- <-]. done.
  - split; [intros ?? [=]|]. intros _ _ _.
    rewrite run_getStudentById.
    pose proof (requests_send (GET_student ident) net1) as Hget.
    destruct (send (GET_student ident) net1) as [[e|row] net2];
      cbn in *; by rewrite Hget, Hput, <-app_assoc.
Qed.

(** X2. A lookup that is answered puts the transformed row in
    [recentLookup], clears [error] and [loading], leaves the list alone
    and has sent the one GET for the identifier. *)
Theorem lookup_sets_recentLookup state (ident : string) net
    (row : BackendStudent) (net' : Net S) :
  send (GET_student ident) net = (inr row, net') →
  perform (LoadOne ident) state net =
    ({| students := students state;
        recentLookup := Some (transformStudentFromBackend row);
        loading := false;
        error := None |}, net') ∧
  requests net' = requests net ++ [GET_student ident].
Proof.
  intros Hsend. open_perform. rewrite run_getStudentById.
  pose proof (requests_send (GET_student ident) net) as Hlog.
  rewrite Hsend in *. done.
Qed.

(** X3. Whatever its outcome, a lookup never changes the list, and a
    load, a create, an update or a delete never changes [recentLookup]. *)
Theorem operations_write_their_own_slot op state net :
  match op with
  | LoadOne _ => students (perform op state net).1 = students state
  | _ => recentLookup (perform op state net).1 = recentLookup state
  end.
Proof.
  destruct op; open_perform.
  - by destruct (run studentService.getAllStudents net) as [[e|r] net'].
  - by destruct (run (studentService.getStudentById ident) net) as [[e|r] net'].
  - by destruct (run (studentService.createStudent draft) net) as [[e|r] net'].
  - destruct (run (studentService.updateStudent ident draft) net) as [[e|r] net'];
      cbn; [done|].
    by destruct (studentSlice.findIndex _ (students state)).
  - by destruct (run (studentService.deleteStudent ident) net) as [[e|r] net'].
Qed.

(** X4. Every operation awaited alone ends with [loading] false; [error]
    is empty afterwards exactly when no request of the operation was
    rejected, whatever [error] held before. *)
Theorem operation_ends_idle op state net :
  let state' := (perform op state net).1 in
  loading state' = false ∧
  (error state' = None ↔ ¬ ∃ e net', requestFailed op net e net').
Proof.
  destruct op; open_perform; cbn [requestFailed].
  - destruct (run studentService.getAllStudents net) as [[e|r] net'] eqn:Hrun;
      idle_case.
  - destruct (run (studentService.getStudentById ident) net) as [[e|r] net'] eqn:Hrun;
      idle_case.
  - destruct (run (studentService.createStudent draft) net) as [[e|r] net'] eqn:Hrun;
      idle_case.
  - destruct (run (studentService.updateStudent ident draft) net) as [[e|r] net'] eqn:Hrun;
      [idle_case|].
    cbn. destruct (studentSlice.findIndex _ (students state)); idle_case.
  - destruct (run (studentService.deleteStudent ident) net) as [[e|r] net'] eqn:Hrun;
      idle_case.
Qed.

(** X5. A lookup, an update and a delete keep the identifiers of the list
    distinct whatever their outcome, and so does a load when the rows it
    is answered with have distinct keys. *)
Theorem operations_keep_distinct_ids op state net :
  uniqueIds (students state) →
  (∀ draft, op ≠ Create draft) →
  (∀ backendStudents net',
     op = LoadAll → send GET_students net = (inr backendStudents, net') →
     NoDup (uuid <$> backendStudents)) →
  uniqueIds (students (perform op state net).1).
Proof.
  intros Hstate Hcreate Hload. destruct op; open_perform.
  - rewrite run_getAllStudents.
    destruct (send GET_students net) as [[e|rows] net'] eqn:Hsend; [done|].
    cbn. apply uniqueIds_transform. by eapply Hload.
  - by destruct (run (studentService.getStudentById ident) net) as [[e|r] net'].
  - by destruct (Hcreate draft).
  - destruct (run (studentService.updateStudent ident draft) net) as [[e|r] net'];
      [done|].
    apply (reducer_uniqueIds _ (studentSlice.updateStudent_fulfilled r)); done.
  - destruct (run (studentService.deleteStudent ident) net) as [[e|r] net'];
      [done|].
    apply (reducer_uniqueIds _ (studentSlice.deleteStudent_fulfilled ident)); done.
Qed.

End OperationFacts.

(** ** More on the list of the slice *)

Section ListFacts.
Context `{Runtime} {S : Store}.
Implicit Types (state : StudentState) (net : Net S) (l pre post : list Student).

Lemma filter_keeps_all (P : Student → Prop) `{∀ s, Decision (P s)} l :
  (∀ s, s ∈ l → P s) → filter P l = l.
Proof.
  induction l as [|x l IH]; intros Hall; [done|].
  rewrite filter_cons_True by (apply Hall; left).
  f_equal. apply IH. intros s Hs. apply Hall. by right.
Qed.

Lemma delete_students state (ident : string) net net' :
  run (studentService.deleteStudent ident) net = (inr tt, net') →
  perform (Delete ident) state net =
    ({| students := filter (λ s, id s ≠ ident) (students state);
        recentLookup := recentLookup state; loading := false; error := None |}, net').
Proof. intros Hrun. open_perform. by rewrite Hrun. Qed.

(** X6. A delete that succeeds leaves a list without the identifier as it
    is; from a list with distinct identifiers it takes out the one record
    that has the identifier and keeps the others in their order. *)
Theorem delete_removes_exactly_that_record state (ident : string) net net' :
  run (studentService.deleteStudent ident) net = (inr tt, net') →
  let students' := students (perform (Delete ident) state net).1 in
  ((∀ s, s ∈ students state → id s ≠ ident) → students' = students state) ∧
  (∀ pre x post,
     students state = pre ++ x :: post → id x = ident →
     uniqueIds (students state) →
     students' = pre ++ post).
Proof.
  intros Hrun. rewrite (delete_students _ _ _ _ Hrun). cbn. split.
  - apply filter_keeps_all.
  - intros pre x post -> Hx Hunique. unfold uniqueIds in Hunique.
    rewrite fmap_app, fmap_cons in Hunique.
    apply NoDup_app in Hunique as (_ & Hpre & [Hpost _]%NoDup_cons).
    rewrite filter_app, filter_cons_False by (intros Hne; by apply Hne).
    rewrite !filter_keeps_all; [done| |].
    + intros s Hs Heq. apply Hpost. rewrite Hx, <-Heq. by apply list_elem_of_fmap_2.
    + intros s Hs Heq. apply (Hpre (id s)); [by apply list_elem_of_fmap_2|].
      rewrite Heq, <-Hx. left.
Qed.

(** X7. A create followed by a delete of the created record gives the list
    back as it was, when no record of it had the new identifier. *)
Theorem create_then_delete_restores_list state (draft : CreateStudentRequest)
    (created : Student) net net1 net2 :
  run (studentService.createStudent draft) net = (inr created, net1) →
  (∀ s, s ∈ students state → id s ≠ id created) →
  run (studentService.deleteStudent (id created)) net1 = (inr tt, net2) →
  let world1 := perform (Create draft) state net in
  students (perform (Delete (id created)) world1.1 world1.2).1 = students state.
Proof.
  intros Hcreate Hfresh Hdelete.
  assert (perform (Create draft) state net =
            ({| students := students state ++ [created];
                recentLookup := recentLookup state; loading := false;
                error := None |}, net1)) as ->.
  { open_perform. by rewrite Hcreate. }
  cbn [fst snd]. rewrite (delete_students _ _ _ _ Hdelete). cbn.
  rewrite filter_app, filter_cons_False, filter_nil, app_nil_r
    by (intros Hne; by apply Hne).
  by apply filter_keeps_all.
Qed.

(** The list after [updateStudent.fulfilled]. *)
Lemma updated_students state (payload : Student) :
  students (studentSlice.reducer state (studentSlice.updateStudent_fulfilled payload)) =
  match studentSlice.findIndex
          (λ s, studentSlice.strictEq (id s) (id payload)) (students state) with
  | Some index => <[index := payload]> (students state)
  | None => students state
  end.
Proof. cbn. by destruct (studentSlice.findIndex _ (students state)). Qed.

Lemma update_commutes_with_filter (payload : Student) (ident : string) l :
  id payload ≠ ident →
  match studentSlice.findIndex (λ s, studentSlice.strictEq (id s) (id payload))
          (filter (λ s, id s ≠ ident) l) with
  | Some index => <[index := payload]> (filter (λ s, id s ≠ ident) l)
  | None => filter (λ s, id s ≠ ident) l
  end =
  filter (λ s, id s ≠ ident)
    match studentSlice.findIndex (λ s, studentSlice.strictEq (id s) (id payload)) l with
    | Some index => <[index := payload]> l
    | None => l
    end.
Proof.
  intros Hne. induction l as [|x l IH]; [done|].
  cbn [studentSlice.findIndex]. unfold studentSlice.strictEq at 2.
  destruct (bool_decide_reflect (id x = id payload)) as [Hx|Hx].
  - rewrite filter_cons_True by congruence.
    cbn [studentSlice.findIndex]. unfold studentSlice.strictEq at 1.
    rewrite bool_decide_eq_true_2 by done. cbn.
    by rewrite decide_True.
  - destruct (decide (id x ≠ ident)) as [Hkeep|Hdrop].
    + rewrite filter_cons_True by done.
      cbn [studentSlice.findIndex]. unfold studentSlice.strictEq at 1.
      rewrite bool_decide_eq_false_2 by done.
      destruct (studentSlice.findIndex _ (filter _ l)) as [i|];
        destruct (studentSlice.findIndex _ l) as [j|]; cbn -[filter] in *;
        rewrite filter_cons_True by done; f_equal; exact IH.
    + rewrite filter_cons_False by done. rewrite IH.
      destruct (studentSlice.findIndex _ l) as [j|]; cbn -[filter];
        by rewrite filter_cons_False.
Qed.

(** X8. The completions of an update and of a delete of another record
    give the same state in either order. *)
Theorem update_and_delete_of_another_record_commute state
    (payload : Student) (ident : string) :
  id payload ≠ ident →
  studentSlice.reducer
    (studentSlice.reducer state (studentSlice.updateStudent_fulfilled payload))
    (studentSlice.deleteStudent_fulfilled ident) =
  studentSlice.reducer
    (studentSlice.reducer state (studentSlice.deleteStudent_fulfilled ident))
    (studentSlice.updateStudent_fulfilled payload).
Proof.
  intros Hne.
  pose proof (update_commutes_with_filter payload ident (students state) Hne) as Hlist.
  cbn. destruct state as [l lookup busy err]. cbn in *.
  destruct (studentSlice.findIndex _ (filter _ l)) as [i|];
    destruct (studentSlice.findIndex _ l) as [j|];
    unfold studentSlice.set_students, studentSlice.set_loading; cbn; congruence.
Qed.

(** X9. The completion of an update, of a delete or of a load handled a
    second time changes nothing. *)
Theorem replayed_completion_changes_nothing state :
  (∀ payload,
     let state' :=
       studentSlice.reducer state (studentSlice.updateStudent_fulfilled payload) in
     studentSlice.reducer state' (studentSlice.updateStudent_fulfilled payload) = state') ∧
  (∀ ident,
     let state' :=
       studentSlice.reducer state (studentSlice.deleteStudent_fulfilled ident) in
     studentSlice.reducer state' (studentSlice.deleteStudent_fulfilled ident) = state') ∧
  (∀ payload,
     let state' :=
       studentSlice.reducer state (studentSlice.fetchStudents_fulfilled payload) in
     studentSlice.reducer state' (studentSlice.fetchStudents_fulfilled payload) = state').
Proof.
  split_and!.
  - intros payload. cbn.
    destruct (studentSlice.findIndex _ (students state)) as [i|] eqn:Hfind; cbn.
    + apply findIndex_split in Hfind as (pre & x & post & Hl & <- & Hx & Hpre).
      rewrite Hl, insert_first_match.
      rewrite (findIndex_first _ pre payload post Hpre)
        by (by apply bool_decide_eq_true).
      cbn. by rewrite insert_first_match.
    + by rewrite Hfind.
  - intros ident. cbn.
    unfold studentSlice.set_students, studentSlice.set_loading. cbn. f_equal.
    apply filter_keeps_all. by intros s [? _]%list_elem_of_filter.
  - done.
Qed.

(** X22. After a create that succeeds, the identifiers of the list are
    distinct exactly when they were before and no record of the list had
    the identifier of the created one. *)
Theorem create_keeps_distinct_ids_iff_fresh state (draft : CreateStudentRequest)
    (created : Student) net net' :
  run (studentService.createStudent draft) net = (inr created, net') →
  uniqueIds (students state) →
  uniqueIds (students (perform (Create draft) state net).1) ↔
  ∀ s, s ∈ students state → id s ≠ id created.
Proof.
  intros Hrun Hunique. open_perform. rewrite Hrun. cbn.
  unfold uniqueIds. rewrite fmap_app, NoDup_app. cbn. split.
  - intros (_ & Hfresh & _) s Hs Heq.
    apply (Hfresh (id s)); [by apply list_elem_of_fmap_2|]. rewrite Heq. left.
  - intros Hfresh. split_and!; [done| |apply NoDup_singleton].
    intros i [s [-> Hs]]%list_elem_of_fmap Hin.
    apply list_elem_of_singleton in Hin. by apply (Hfresh s).
Qed.

(** X10. When the answer to a request completes a thunk, [loading]
    becomes false although the other tasks remain in flight. *)
Theorem completion_clears_loading_for_all (sys : System S) (i : nat)
    (req : Request) (k : Js.Thrown + ResponseData req → Async studentSlice.Action)
    (response : Js.Thrown + ResponseData req) (net' : Net S)
    (action : studentSlice.Action) :
  inFlight sys !! i = Some (Await req k) →
  send req (net sys) = (response, net') →
  k response = Resolved action →
  isRejected action || isFulfilled action = true →
  let sys' := step sys (Resume i) in
  loading (store sys') = false ∧
  inFlight sys' = delete i (inFlight sys) ∧
  length (inFlight sys') = pred (length (inFlight sys)).
Proof.
  intros Htask Hsend Hdone Hcompletion. cbn. rewrite Htask, Hsend, Hdone. cbn.
  split_and!.
  - destruct action; try done; cbn.
    by destruct (studentSlice.findIndex _ (students (store sys))).
  - done.
  - apply lookup_lt_Some in Htask. rewrite length_delete; [lia|].
    by apply lookup_lt_is_Some_2.
Qed.

End ListFacts.

(** ** More on the view *)

Section ViewFacts.
Context `{Runtime}.
Implicit Types (cmp : Student → Student → Z) (l acc : list Student)
  (filters : FilterConfig) (sortConfig : SortConfig).

Lemma insertSorted_perm cmp (x : Student) l :
  StudentsPage.insertSorted cmp x l ≡ₚ x :: l.
Proof.
  induction l as [|y l IH]; simpl; [done|].
  destruct (cmp x y <? 0); [done|]. rewrite IH. apply Permutation_swap.
Qed.

Lemma sort_perm_acc cmp l acc :
  foldl (λ sorted x, StudentsPage.insertSorted cmp x sorted) acc l ≡ₚ l ++ acc.
Proof.
  revert acc. induction l as [|x l IH]; intros acc; simpl; [done|].
  rewrite IH, insertSorted_perm. by rewrite Permutation_middle.
Qed.

Lemma sort_perm cmp l : StudentsPage.sort cmp l ≡ₚ l.
Proof. unfold StudentsPage.sort. by rewrite sort_perm_acc, app_nil_r. Qed.

(** X11. The view holds the records of the list that pass the filter,
    each as often as the list does, and no other record. *)
Theorem view_shows_exactly_the_matches (students : list Student) filters sortConfig :
  StudentsPage.filteredAndSortedStudents students filters sortConfig ≡ₚ
    List.filter (StudentsPage.passes filters) students ∧
  ∀ x, x ∈ StudentsPage.filteredAndSortedStudents students filters sortConfig ↔
       x ∈ students ∧ StudentsPage.passes filters x = true.
Proof.
  unfold StudentsPage.filteredAndSortedStudents. split.
  - apply sort_perm.
  - intros x. rewrite sort_perm, !list_elem_of_In, filter_In. done.
Qed.

Lemma insertSorted_sorted cmp (f : Student → Z) (x : Student) l :
  (∀ a b, cmp a b < 0 ↔ f a < f b) →
  StronglySorted (λ a b, f a ≤ f b) l →
  StronglySorted (λ a b, f a ≤ f b) (StudentsPage.insertSorted cmp x l).
Proof.
  intros Hcmp. induction 1 as [|y l Hsorted IH Hall]; simpl.
  - by repeat constructor.
  - destruct (Z.ltb_spec (cmp x y) 0) as [Hlt|Hge].
    + apply Hcmp in Hlt. constructor; [by constructor|].
      constructor; [lia|]. eapply Forall_impl; [exact Hall|]. intros z Hz. simpl in Hz. lia.
    + constructor; [done|]. rewrite insertSorted_perm. constructor; [|done].
      destruct (Z.lt_ge_cases (f x) (f y)) as [Hlt|Hle]; [|lia].
      apply Hcmp in Hlt. lia.
Qed.

Lemma sort_sorted cmp (f : Student → Z) l :
  (∀ a b, cmp a b < 0 ↔ f a < f b) →
  StronglySorted (λ a b, f a ≤ f b) (StudentsPage.sort cmp l).
Proof.
  intros Hcmp. unfold StudentsPage.sort.
  assert (∀ acc, StronglySorted (λ a b, f a ≤ f b) acc →
            StronglySorted (λ a b, f a ≤ f b)
              (foldl (λ sorted x, StudentsPage.insertSorted cmp x sorted) acc l)) as Hacc.
  { induction l as [|x l IH]; intros acc Hsorted; simpl; [done|].
    apply IH. by apply insertSorted_sorted. }
  apply Hacc. constructor.
Qed.

Lemma StronglySorted_weaken (R R' : Student → Student → Prop) l :
  (∀ a b, R a b → R' a b) → StronglySorted R l → StronglySorted R' l.
Proof.
  intros Himpl. induction 1 as [|x l Hsorted IH Hall]; constructor; [done|].
  eapply Forall_impl; [exact Hall|]. auto.
Qed.

Lemma compareStudents_number (k : SortKey) (f : Student → Z) (a b : Student) :
  (∀ s, StudentsPage.numberOf k s = Some (f s)) →
  StudentsPage.compareStudents {| key := k; direction := asc |} a b = f a - f b ∧
  StudentsPage.compareStudents {| key := k; direction := desc |} a b = f b - f a.
Proof.
  intros Hf. pose proof (Hf a) as Ha. pose proof (Hf b) as Hb.
  unfold StudentsPage.numberOf in Ha, Hb. unfold StudentsPage.compareStudents.
  cbn [key direction].
  destruct (StudentsPage.get a k); [done|]. destruct (StudentsPage.get b k); [done|].
  by simplify_eq.
Qed.

(** X12. Sorted by class, by age or by siblings, the view is in
    non-decreasing order of that number when ascending and in
    non-increasing order when descending. *)
Theorem view_sorted_by_number (students : list Student) filters
    (k : SortKey) (f : Student → Z) :
  (∀ s, StudentsPage.numberOf k s = Some (f s)) →
  StronglySorted (λ a b, f a ≤ f b)
    (StudentsPage.filteredAndSortedStudents students filters
       {| key := k; direction := asc |}) ∧
  StronglySorted (λ a b, f b ≤ f a)
    (StudentsPage.filteredAndSortedStudents students filters
       {| key := k; direction := desc |}).
Proof.
  intros Hf. unfold StudentsPage.filteredAndSortedStudents. split.
  - apply sort_sorted. intros a b.
    destruct (compareStudents_number k f a b Hf) as [-> _]. lia.
  - assert (StronglySorted (λ a b, - f a ≤ - f b)
              (StudentsPage.sort
                 (StudentsPage.compareStudents {| key := k; direction := desc |})
                 (List.filter (StudentsPage.passes filters) students))) as Hsorted.
    { apply sort_sorted. intros a b.
      destruct (compareStudents_number k f a b Hf) as [_ ->]. lia. }
    eapply StronglySorted_weaken; [|exact Hsorted].
    intros a b Hab. simpl in Hab. lia.
Qed.

Lemma filter_none (P : Student → Prop) `{∀ s, Decision (P s)} l :
  (∀ s, s ∈ l → ¬ P s) → filter P l = [].
Proof.
  induction l as [|x l IH]; intros Hnone; [done|].
  rewrite filter_cons_False by (apply Hnone; left).
  apply IH. intros s Hs. apply Hnone. by right.
Qed.

Lemma insertSorted_keeps_ties cmp (f : Student → Z) (v : Z) (x : Student) l :
  (∀ a b, cmp a b < 0 ↔ f a < f b) →
  StronglySorted (λ a b, f a ≤ f b) l →
  filter (λ s, f s = v) (StudentsPage.insertSorted cmp x l) =
  filter (λ s, f s = v) l ++ filter (λ s, f s = v) [x].
Proof.
  intros Hcmp. induction 1 as [|y l Hsorted IH Hall]; simpl; [done|].
  destruct (Z.ltb_spec (cmp x y) 0) as [Hlt|Hge].
  - apply Hcmp in Hlt.
    destruct (decide (f x = v)) as [Hx|Hx].
    + rewrite (filter_cons_True _ x) by done.
      rewrite (filter_none _ (y :: l)); [by rewrite (filter_cons_True _ x)|].
      intros s [->|Hs]%elem_of_cons; [lia|].
      rewrite Forall_forall in Hall. specialize (Hall s Hs). simpl in Hall. lia.
    + rewrite !(filter_cons_False _ x) by done. by rewrite filter_nil, app_nil_r.
  - rewrite !(filter_cons _ y), IH. by case_decide.
Qed.

Lemma sort_keeps_ties cmp (f : Student → Z) (v : Z) l :
  (∀ a b, cmp a b < 0 ↔ f a < f b) →
  filter (λ s, f s = v) (StudentsPage.sort cmp l) = filter (λ s, f s = v) l.
Proof.
  intros Hcmp. unfold StudentsPage.sort.
  assert (∀ acc, StronglySorted (λ a b, f a ≤ f b) acc →
            filter (λ s, f s = v)
              (foldl (λ sorted x, StudentsPage.insertSorted cmp x sorted) acc l) =
            filter (λ s, f s = v) acc ++ filter (λ s, f s = v) l) as Hacc.
  { induction l as [|x l IH]; intros acc Hsorted; simpl.
    - by rewrite filter_nil, app_nil_r.
    - rewrite IH by (by apply insertSorted_sorted).
      rewrite insertSorted_keeps_ties by done.
      rewrite <-app_assoc. f_equal.
      by rewrite <-filter_app. }
  rewrite Hacc by constructor. done.
Qed.

(** X24. Sorted by class, by age or by siblings, in either direction, the
    records with the same number stand in the view in the order they have
    in the list. *)
Theorem view_keeps_order_of_ties (students : list Student) filters
    (k : SortKey) (f : Student → Z) (v : Z) (d : Direction) :
  (∀ s, StudentsPage.numberOf k s = Some (f s)) →
  filter (λ s, f s = v)
    (StudentsPage.filteredAndSortedStudents students filters
       {| key := k; direction := d |}) =
  filter (λ s, f s = v) (List.filter (StudentsPage.passes filters) students).
Proof.
  intros Hf. unfold StudentsPage.filteredAndSortedStudents. destruct d.
  - apply sort_keeps_ties. intros a b.
    destruct (compareStudents_number k f a b Hf) as [-> _]. lia.
  - rewrite !(list_filter_iff (λ s, f s = v) (λ s, - f s = - v)) by (intros; lia).
    apply (sort_keeps_ties _ (λ s, - f s)). intros a b.
    destruct (compareStudents_number k f a b Hf) as [_ ->]. lia.
Qed.

Lemma passes_noFilters (x : Student) :
  StudentsPage.passes StudentsPage.noFilters x = true.
Proof. done. Qed.

Lemma List_filter_all (p : Student → bool) l :
  (∀ x, p x = true) → List.filter p l = l.
Proof.
  intros Hp. induction l as [|x l IH]; simpl; [done|]. by rewrite Hp, IH.
Qed.

(** X13. With the filters as [clearFilters] sets them, every record of the
    list is in the view, whatever the sort. *)
Theorem cleared_filters_show_every_record (students : list Student) sortConfig :
  StudentsPage.filteredAndSortedStudents students StudentsPage.noFilters sortConfig
    ≡ₚ students.
Proof.
  unfold StudentsPage.filteredAndSortedStudents.
  rewrite sort_perm, List_filter_all; [done|]. apply passes_noFilters.
Qed.

End ViewFacts.

(** X14. A second request on the key the table is sorted by gives back the
    sort configuration there was before the first. *)
Theorem handleSort_twice_restores (prev : SortConfig) :
  StudentsPage.handleSort (StudentsPage.handleSort prev (key prev)) (key prev) = prev.
Proof.
  destruct prev as [k d]. unfold StudentsPage.handleSort. cbn [key direction].
  rewrite !bool_decide_eq_true_2 by done. by destruct d.
Qed.

(** X15. After a sort request on a column, that column shows the arrow of
    the new direction (down when the request turned an ascending sort on
    that column around, up otherwise) and every other column the two-way
    arrow. *)
Theorem sort_indicator_follows_request (prev : SortConfig) (k column : SortKey) :
  StudentsPageDialogs.getSortIndicator (StudentsPage.handleSort prev k) column =
  if bool_decide (column = k)
  then if bool_decide (key prev = k ∧ direction prev = asc)
       then StudentsPageDialogs.Down else StudentsPageDialogs.Up
  else StudentsPageDialogs.BothWays.
Proof.
  unfold StudentsPageDialogs.getSortIndicator, StudentsPage.handleSort.
  cbn [key direction].
  destruct (decide (column = k)) as [->|Hne].
  - rewrite !bool_decide_eq_true_2 by done. cbn.
    destruct (decide (key prev = k)), (decide (direction prev = asc)).
    + rewrite !bool_decide_eq_true_2 by done. done.
    + rewrite bool_decide_eq_true_2, (bool_decide_eq_false_2 (direction prev = asc)) by done.
      cbn. by rewrite bool_decide_eq_false_2 by tauto.
    + rewrite (bool_decide_eq_false_2 (key prev = k)) by done.
      cbn. by rewrite bool_decide_eq_false_2 by tauto.
    + rewrite (bool_decide_eq_false_2 (key prev = k)) by done.
      cbn. by rewrite bool_decide_eq_false_2 by tauto.
  - rewrite (bool_decide_eq_false_2 (k = column)) by congruence.
    by rewrite (bool_decide_eq_false_2 (column = k)).
Qed.

(** ** More on the form *)

Ltac choose_key Hset :=
  first [ split; [reflexivity | exact Hset]
        | left; split; [reflexivity | exact Hset]
        | right; choose_key Hset ].

Ltac pick_field :=
  first
    [ split;
      [ intros Hk; repeat (destruct Hk as [Hk|Hk]);
        destruct Hk as [Hkey Hset]; first [discriminate Hkey | exact Hset]
      | intros Hset; choose_key Hset ]
    | intros Hk; repeat (destruct Hk as [Hk|Hk]);
      destruct Hk as [Hkey Hset]; first [discriminate Hkey | by destruct Hset] ].

Section FormFacts2.
Context `{Runtime}.

(** X16. [validateForm] lets a draft through exactly when its name and its
    gpa are not made of white space only, its class is in [1, 12], its age
    in [1, 100], its siblings in [0, 20], and [parseFloat] reads from the
    gpa a number from 0 to 10. *)
Theorem validateForm_accepts_exactly (formData : CreateStudentRequest) :
  StudentForm.validateForm formData = true ↔
  Js.allWhiteSpace (req_name formData) = false ∧
  1 ≤ req_class formData ≤ 12 ∧
  1 ≤ req_age formData ≤ 100 ∧
  0 ≤ req_siblings formData ≤ 20 ∧
  Js.allWhiteSpace (req_gpa formData) = false ∧
  parseFloat (req_gpa formData) ≠ Js.NaN ∧
  ¬ StudentForm.outsideGpaRange (parseFloat (req_gpa formData)).
Proof. apply validateForm_true. Qed.

Lemma keyIfSet_elem (k k' : string) (message : option string) :
  k' ∈ StudentForm.keyIfSet k message ↔ k' = k ∧ message ≠ None.
Proof.
  destruct message; cbn.
  - rewrite list_elem_of_singleton. split; [by intros -> | by intros [-> _]].
  - split; [by intros ?%elem_of_nil | by intros [_ ?]].
Qed.

Lemma keys_elem (errors : StudentForm.Errors) (k : string) :
  k ∈ StudentForm.keys errors ↔
  (k = "name" ∧ StudentForm.err_name errors ≠ None) ∨
  (k = "class" ∧ StudentForm.err_class errors ≠ None) ∨
  (k = "sex" ∧ StudentForm.err_sex errors ≠ None) ∨
  (k = "age" ∧ StudentForm.err_age errors ≠ None) ∨
  (k = "siblings" ∧ StudentForm.err_siblings errors ≠ None) ∨
  (k = "gpa" ∧ StudentForm.err_gpa errors ≠ None).
Proof. unfold StudentForm.keys. by rewrite !elem_of_app, !keyIfSet_elem. Qed.

Lemma message_set (b : bool) (message : string) :
  (if b then Some message else None) ≠ None ↔ b = true.
Proof. by destruct b. Qed.

Lemma out_of_range_true (x lo hi : Z) :
  (x <? lo) || (x >? hi) = true ↔ x < lo ∨ hi < x.
Proof. rewrite orb_true_iff, Z.ltb_lt, Z.gtb_ltb, Z.ltb_lt. done. Qed.

Lemma gpa_range_test_true (n : Js.number) :
  Js.isNaN n || Js.ltb n (Js.ofZ 0) || Js.gtb n (Js.ofZ 10) = true ↔
  n = Js.NaN ∨ StudentForm.outsideGpaRange n.
Proof.
  destruct n as [|[]|q]; cbn.
  - split; [by left | done].
  - split; [by right | done].
  - split; [by right | done].
  - rewrite orb_true_iff, !negb_true_iff, <-!not_true_iff_false, !Qle_bool_iff.
    split.
    + intros [Hlt|Hlt]; right; [left|right]; by apply Qnot_le_lt.
    + intros [[=]|[Hlt|Hlt]]; [left|right]; by apply Qlt_not_le.
Qed.

Lemma err_gpa_set (formData : CreateStudentRequest) :
  StudentForm.err_gpa (StudentForm.newErrors formData) ≠ None ↔
  Js.allWhiteSpace (req_gpa formData) = true ∨
  parseFloat (req_gpa formData) = Js.NaN ∨
  StudentForm.outsideGpaRange (parseFloat (req_gpa formData)).
Proof.
  cbn [StudentForm.newErrors StudentForm.err_gpa]. rewrite truthy_trim, negb_involutive.
  destruct (Js.allWhiteSpace (req_gpa formData)).
  - split; [by left | done].
  - rewrite message_set, gpa_range_test_true.
    split; [by right | by intros [[=]|?]].
Qed.

(** X17. The errors of the form are reported field by field: the key of a
    field is among the errors exactly when that field breaks its own
    constraint, [sex] never is, and the gpa message is the one for a
    missing gpa exactly when the gpa is white space only. *)
Theorem newErrors_reports_each_field (formData : CreateStudentRequest) :
  ("name" ∈ StudentForm.keys (StudentForm.newErrors formData) ↔
     Js.allWhiteSpace (req_name formData) = true) ∧
  ("class" ∈ StudentForm.keys (StudentForm.newErrors formData) ↔
     req_class formData < 1 ∨ 12 < req_class formData) ∧
  ("sex" ∉ StudentForm.keys (StudentForm.newErrors formData)) ∧
  ("age" ∈ StudentForm.keys (StudentForm.newErrors formData) ↔
     req_age formData < 1 ∨ 100 < req_age formData) ∧
  ("siblings" ∈ StudentForm.keys (StudentForm.newErrors formData) ↔
     req_siblings formData < 0 ∨ 20 < req_siblings formData) ∧
  ("gpa" ∈ StudentForm.keys (StudentForm.newErrors formData) ↔
     Js.allWhiteSpace (req_gpa formData) = true ∨
     parseFloat (req_gpa formData) = Js.NaN ∨
     StudentForm.outsideGpaRange (parseFloat (req_gpa formData))) ∧
  (StudentForm.err_gpa (StudentForm.newErrors formData) = Some "GPA is required" ↔
     Js.allWhiteSpace (req_gpa formData) = true).
Proof.
  rewrite !keys_elem, err_gpa_set.
  cbn [StudentForm.newErrors StudentForm.err_name StudentForm.err_class
       StudentForm.err_sex StudentForm.err_age StudentForm.err_siblings
       StudentForm.err_gpa].
  rewrite !message_set, !out_of_range_true, !truthy_trim, !negb_involutive.
  split_and!; [pick_field..|].
  destruct (Js.allWhiteSpace (req_gpa formData)); [done|].
  split; [|done].
  by destruct (Js.isNaN _ || Js.ltb _ _ || Js.gtb _ _).
Qed.

End FormFacts2.

(** ** The pages *)

Section PageFacts.
Context `{Runtime} {S : Store}.
Implicit Types (state : StudentState) (net : Net S) (world : StudentState * Net S).

Lemma dispatchUnwrap_tryCatch {A : Type} (pending : studentSlice.Action)
    (m : Async A) (ok : A → studentSlice.Action)
    (handler : Js.Thrown → studentSlice.Action) state net :
  dispatchUnwrap {| studentSlice.pendingAction := pending;
                    studentSlice.payloadCreator := tryCatch m ok handler |} state net =
  match run m net with
  | (inr a, net') =>
      (isRejected (ok a),
       (studentSlice.reducer (studentSlice.reducer state pending) (ok a), net'))
  | (inl e, net') =>
      (isRejected (handler e),
       (studentSlice.reducer (studentSlice.reducer state pending) (handler e), net'))
  end.
Proof.
  unfold dispatchUnwrap. simpl. rewrite run_tryCatch.
  by destruct (run m net) as [[e|a] net'].
Qed.

(** [unwrap] changes nothing of what the dispatch does. *)
Lemma dispatchUnwrap_dispatch (thunk : studentSlice.AsyncThunk) state net :
  (dispatchUnwrap thunk state net).2 = dispatch thunk state net.
Proof.
  unfold dispatchUnwrap, dispatch.
  by destruct (run (studentSlice.payloadCreator thunk) net) as [[e|a] net'].
Qed.

(** X18. A search with an identifier of white space only sends no request
    and changes nothing but the message under the input; the Search
    button is disabled for such an identifier. *)
Theorem blank_search_sends_nothing (local : StudentLookupPage.Local) world :
  Js.allWhiteSpace (StudentLookupPage.searchId local) = true →
  StudentLookupPage.handleSearch local world =
    ({| StudentLookupPage.searchId := StudentLookupPage.searchId local;
        StudentLookupPage.searchError := "Please enter a student ID" |}, world) ∧
  StudentLookupPage.searchDisabled local world.1 = true.
Proof.
  intros Hblank.
  unfold StudentLookupPage.handleSearch, StudentLookupPage.searchDisabled.
  rewrite truthy_trim, Hblank. split; [done|]. apply orb_true_r.
Qed.

(** X19. A search with any other identifier is the lookup of the trimmed
    identifier: one GET for it; when it is answered the record is in
    [recentLookup] and the message under the input is empty, and when it
    is rejected, for whatever reason, the message says the student was not
    found, [recentLookup] stays and [error] holds the message of the
    rejection. *)
Theorem search_looks_up_trimmed_id (local : StudentLookupPage.Local) state net :
  Js.allWhiteSpace (StudentLookupPage.searchId local) = false →
  let ident := Js.trim (StudentLookupPage.searchId local) in
  let result := StudentLookupPage.handleSearch local (state, net) in
  result.2 = perform (LoadOne ident) state net ∧
  requests result.2.2 = requests net ++ [GET_student ident] ∧
  StudentLookupPage.searchId result.1 = StudentLookupPage.searchId local ∧
  match (send (GET_student ident) net).1 with
  | inr row =>
      StudentLookupPage.searchError result.1 = "" ∧
      recentLookup result.2.1 = Some (transformStudentFromBackend row)
  | inl e =>
      StudentLookupPage.searchError result.1 =
        "Student not found. Please check the ID and try again." ∧
      recentLookup result.2.1 = recentLookup state ∧
      error result.2.1 = Some (studentSlice.errorMessage e "Failed to fetch student")
  end.
Proof.
  intros Hfilled. cbv zeta. unfold StudentLookupPage.handleSearch.
  rewrite truthy_trim, Hfilled. cbn [negb fst snd].
  unfold perform. cbn [thunkOf]. unfold studentSlice.fetchStudentById.
  rewrite dispatchUnwrap_tryCatch, dispatch_tryCatch, run_getStudentById.
  pose proof (requests_send
                (GET_student (Js.trim (StudentLookupPage.searchId local))) net) as Hlog.
  destruct (send (GET_student (Js.trim (StudentLookupPage.searchId local))) net)
    as [[e|row] net']; done.
Qed.

(** X20. Confirming the delete of a record sends the one DELETE for its
    identifier and closes the confirmation whether or not the delete
    succeeds, leaving the form as it is; with no record to confirm, nothing
    is sent and nothing changes. *)
Theorem confirmed_delete_closes_dialog (local : StudentsPageDialogs.Local)
    (student : Student) world :
  let result :=
    StudentsPageDialogs.confirmDelete
      (StudentsPageDialogs.handleDeleteStudent student local) world in
  StudentsPageDialogs.deleteConfirm result.1 = None ∧
  StudentsPageDialogs.showForm result.1 = StudentsPageDialogs.showForm local ∧
  StudentsPageDialogs.editingStudent result.1 =
    StudentsPageDialogs.editingStudent local ∧
  result.2 = perform (Delete (id student)) world.1 world.2 ∧
  requests result.2.2 = requests world.2 ++ [DELETE_student (id student)] ∧
  StudentsPageDialogs.confirmDelete
    (StudentsPageDialogs.cancelDelete
       (StudentsPageDialogs.handleDeleteStudent student local)) world =
    (StudentsPageDialogs.cancelDelete
       (StudentsPageDialogs.handleDeleteStudent student local), world).
Proof.
  cbv zeta.
  unfold StudentsPageDialogs.confirmDelete, StudentsPageDialogs.handleDeleteStudent,
    StudentsPageDialogs.cancelDelete.
  cbn [StudentsPageDialogs.deleteConfirm StudentsPageDialogs.showForm
       StudentsPageDialogs.editingStudent fst snd].
  split_and!; try done.
  unfold studentSlice.deleteStudent. rewrite dispatch_tryCatch, run_deleteStudent.
  pose proof (requests_send (DELETE_student (id student)) world.2) as Hlog.
  by destruct (send (DELETE_student (id student)) world.2) as [[e|r] net'].
Qed.

(** X21. A submit of the form with a draft that does not validate changes
    nothing and leaves the form open.  With a valid draft the page creates
    the student when the form was opened by Add and updates the record the
    form was opened on by Edit; the form closes when the operation
    succeeds and stays open, on the same record, when it fails. *)
Theorem submit_closes_form_on_success_only (formData : CreateStudentRequest)
    (local : StudentsPageDialogs.Local) world :
  let result := StudentsPageDialogs.submitForm formData local world in
  (StudentForm.validateForm formData = false → result = (local, world)) ∧
  (StudentForm.validateForm formData = true →
     result.2 =
       match StudentsPageDialogs.editingStudent local with
       | Some student => perform (Update (id student) formData) world.1 world.2
       | None => perform (Create formData) world.1 world.2
       end ∧
     (error result.2.1 = None → result.1 = StudentsPageDialogs.closeForm local) ∧
     (error result.2.1 ≠ None → result.1 = local)).
Proof.
  cbv zeta. unfold StudentsPageDialogs.submitForm, StudentForm.handleSubmit.
  destruct (StudentForm.validateForm formData); split; try done.
  intros _. unfold StudentsPageDialogs.handleFormSubmit, perform. cbn [fst snd thunkOf].
  destruct (StudentsPageDialogs.editingStudent local) as [student|].
  - unfold studentSlice.updateStudent.
    rewrite dispatchUnwrap_tryCatch, dispatch_tryCatch.
    destruct (run (studentService.updateStudent (id student) formData) world.2)
      as [[e|r] net']; cbn; [done|].
    by destruct (studentSlice.findIndex _ (students world.1)).
  - unfold studentSlice.createStudent.
    rewrite dispatchUnwrap_tryCatch, dispatch_tryCatch.
    by destruct (run (studentService.createStudent formData) world.2)
      as [[e|r] net'].
Qed.

End PageFacts.
(** ** The operations on sample data *)

Section Examples.
#[local] Existing Instance ReferenceRuntime.runtime.

(** The lookup of an identifier the store has no row for fails; the list
    and the earlier lookup stay. *)
Lemma failed_operation_keeps_records_witness :
  perform (LoadOne "99") (Sample.loaded [Sample.alice] (Some Sample.alice)) Sample.oneRow =
    ({| students := [Sample.alice];
        recentLookup := Some Sample.alice;
        loading := false;
        error := Some "Request failed with status code 404" |},
     {| server := server Sample.oneRow; requests := [GET_student "99"] |}).
Proof.
  apply (failed_operation_keeps_records (LoadOne "99")
           (Sample.loaded [Sample.alice] (Some Sample.alice)) Sample.oneRow
           _ MemoryStore.notFound).
  vm_compute. reflexivity.
Defined.


(** C1. The list shows Alice.  A create of Bob is dispatched and its POST
    is answered; the page is mounted again and dispatches a load, which is
    answered with Alice and Bob and replaces the list; then the follow-up
    fetch of the create is answered and its record is pushed: the list
    now holds Bob twice. *)
Theorem create_completing_after_loadAll_appends_second_copy :
  let final :=
    schedule
      {| store := Sample.loaded [Sample.alice] None;
         net := Sample.oneRow;
         inFlight := [] |}
      [Dispatch (studentSlice.createStudent Sample.bobDraft); Resume 0;
       Dispatch studentSlice.fetchStudents; Resume 1;
       Resume 0] in
  students (store final) = [Sample.alice; Sample.bob; Sample.bob] ∧
  inFlight final = [] ∧
  requests (net final) =
    [POST_student (transformStudentToBackend Sample.bobDraft);
     GET_students; GET_student "2"] ∧
  ¬ uniqueIds (students (store final)).
Proof.
  cbv zeta. split_and!.
  - vm_compute. reflexivity.
  - vm_compute. reflexivity.
  - vm_compute. reflexivity.
  - assert (students (store (schedule
        {| store := Sample.loaded [Sample.alice] None;
           net := Sample.oneRow; inFlight := [] |}
        [Dispatch (studentSlice.createStudent Sample.bobDraft); Resume 0;
         Dispatch studentSlice.fetchStudents; Resume 1; Resume 0]))
      = [Sample.alice; Sample.bob; Sample.bob]) as -> by (vm_compute; reflexivity).
    unfold uniqueIds. cbn [fmap list_fmap].
    rewrite !NoDup_cons. intros (_ & Hbob & _). apply Hbob. left.
Qed.

(** The list [Alice, Bob, Carol] after an update of Bob: Bob's record is
    replaced where it stands. *)
Lemma update_replaces_in_place_witness :
  students
    (perform (Update "2" Sample.bobEdited)
       (Sample.loaded [Sample.alice; Sample.bob; Sample.carol] None)
       Sample.threeRows).1
  = [Sample.alice; Sample.robert; Sample.carol].
Proof.
  destruct (update_replaces_in_place
              (Sample.loaded [Sample.alice; Sample.bob; Sample.carol] None)
              "2" Sample.bobEdited Sample.robert Sample.threeRows
              (run (studentService.updateStudent "2" Sample.bobEdited)
                 Sample.threeRows).2) as [Hreplace _].
  - vm_compute. reflexivity.
  - reflexivity.
  - apply (Hreplace [Sample.alice] Sample.bob [Sample.carol]).
    + reflexivity.
    + reflexivity.
    + intros x Hx. apply list_elem_of_singleton in Hx. subst x.
      vm_compute. discriminate.
Defined.

(** Bob was looked up and is then deleted from the list [Alice, Bob,
    Carol]: the lookup slot still holds Bob, the list does not. *)
Lemma delete_keeps_recentLookup_witness :
  let state' :=
    (perform (Delete "2")
       (Sample.loaded [Sample.alice; Sample.bob; Sample.carol] (Some Sample.bob))
       Sample.threeRows).1 in
  recentLookup state' = Some Sample.bob ∧
  students state' =
    filter (λ s, id s ≠ "2") [Sample.alice; Sample.bob; Sample.carol] ∧
  (∀ s, s ∈ students state' ↔
        s ∈ [Sample.alice; Sample.bob; Sample.carol] ∧ id s ≠ "2") ∧
  Sample.bob ∉ students state'.
Proof.
  eapply (delete_keeps_recentLookup
            (Sample.loaded [Sample.alice; Sample.bob; Sample.carol] (Some Sample.bob))
            Sample.bob Sample.threeRows).
  - reflexivity.
  - vm_compute. reflexivity.
Defined.

Example delete_sample_students :
  students
    (perform (Delete "2")
       (Sample.loaded [Sample.alice; Sample.bob; Sample.carol] (Some Sample.bob))
       Sample.threeRows).1
  = [Sample.alice; Sample.carol].
Proof. vm_compute. reflexivity. Qed.

(** The scenario of the specification: the store holds Alice, a load shows
    her with her gpa as text, and a create of Bob makes the list
    [Alice, Bob]. *)
Example scenario_load_then_create :
  let '(state1, net1) := perform LoadAll studentSlice.initialState Sample.oneRow in
  let '(state2, net2) := perform (Create Sample.bobDraft) state1 net1 in
  students state1 = [Sample.alice] ∧ gpa Sample.alice = "8.5" ∧
  students state2 = [Sample.alice; Sample.bob] ∧
  requests net2 =
    [GET_students; POST_student (transformStudentToBackend Sample.bobDraft);
     GET_student "2"].
Proof. vm_compute. done. Qed.

Lemma reference_localeCompare_antisym (s t : string) :
  Z.sgn (ReferenceRuntime.localeCompare t s) =
  - Z.sgn (ReferenceRuntime.localeCompare s t).
Proof.
  unfold ReferenceRuntime.localeCompare. rewrite (String.compare_antisym s t).
  by destruct (String.compare t s).
Defined.

(** Carol's gpa 10 against Alice's 8.5, by code units. *)
Lemma gpa_compared_as_text_witness :
  StudentsPage.compareStudents {| key := key_gpa; direction := asc |}
    Sample.carol Sample.alice = ReferenceRuntime.localeCompare "10" "8.5" ∧
  Z.sgn (StudentsPage.compareStudents {| key := key_gpa; direction := desc |}
           Sample.carol Sample.alice) =
  - Z.sgn (StudentsPage.compareStudents {| key := key_gpa; direction := asc |}
             Sample.carol Sample.alice).
Proof.
  destruct gpa_compared_as_text as (Htext & _ & _ & _ & _ & Hsign).
  split.
  - apply Htext.
  - apply Hsign. apply reference_localeCompare_antisym.
Defined.

(** Ascending by gpa, 10 comes before 8.5; ascending by age it comes after. *)
Example gpa_ten_sorts_before_eight :
  StudentsPage.filteredAndSortedStudents [Sample.alice; Sample.bob; Sample.carol]
    StudentsPage.noFilters {| key := key_gpa; direction := asc |}
  = [Sample.carol; Sample.bob; Sample.alice] ∧
  StudentsPage.filteredAndSortedStudents [Sample.alice; Sample.bob; Sample.carol]
    StudentsPage.noFilters {| key := key_age; direction := desc |}
  = [Sample.carol; Sample.bob; Sample.alice] ∧
  StudentsPage.filteredAndSortedStudents [Sample.bob; Sample.alice]
    StudentsPage.noFilters {| key := key_name; direction := asc |}
  = [Sample.alice; Sample.bob] ∧
  StudentsPage.filteredAndSortedStudents [Sample.alice; Sample.bob]
    StudentsPage.noFilters {| key := key_name; direction := desc |}
  = [Sample.bob; Sample.alice].
Proof. vm_compute. done. Qed.

(** The filter of property P4: "an" in any case, female, aged 10 to 20. *)
Example filter_P4 :
  StudentsPage.passes Sample.filterP4 Sample.joanna = true ∧
  StudentsPage.passes Sample.filterP4 Sample.alice = false ∧
  List.filter (StudentsPage.passes Sample.filterP4)
    [Sample.alice; Sample.joanna; Sample.bob] = [Sample.joanna] ∧
  List.filter
    (StudentsPage.passes (StudentsPage.clearFilterField StudentsPage.field_name
                            Sample.filterP4))
    [Sample.alice; Sample.joanna; Sample.bob] = [Sample.alice; Sample.joanna].
Proof. vm_compute. done. Qed.


(** [parseFloat] reads the longest prefix that is a number: the gpa [7abc]
    has the parsed value 7, the form lets the draft through and the store
    receives the gpa 7. *)
Example gpa_with_trailing_text_is_read_as_its_prefix :
  parseFloat "7abc" = Js.Finite 7 ∧
  StudentForm.validateForm Sample.gpaWithUnit = true ∧
  requests
    (submitStudentForm None Sample.gpaWithUnit
       (Sample.loaded [Sample.alice] None, Sample.oneRow)).2
  = [POST_student (transformStudentToBackend Sample.gpaWithUnit);
     GET_student "2"].
Proof. vm_compute. done. Qed.

(** Which texts are numerals, and what [parseFloat] reads from them. *)
Example numeric_texts :
  FieldConstraints.numeric <$> ["7.5"; " 7.5 "; "-.5"; "1e1"; "7abc"; "7,5"; "5 apples"; "abc"]
  = [true; true; true; true; false; false; false; false] ∧
  parseFloat <$> ["7abc"; "7,5"; "5 apples"; "abc"]
  = [Js.Finite 7; Js.Finite 7; Js.Finite 5; Js.NaN].
Proof. vm_compute. done. Qed.

(** A text that [parseFloat] reads no number from is not a numeral: the
    drafts [StudentForm.validateForm] refuses for their gpa are among
    those the specification lists. *)
Lemma unreadable_text_is_not_numeric (text : string) :
  parseFloat text = Js.NaN → FieldConstraints.numeric text = false.
Proof.
  cbn [parseFloat ReferenceRuntime.runtime].
  unfold ReferenceRuntime.parseFloat, FieldConstraints.numeric.
  destruct (ReferenceRuntime.readSign (Js.trimStart text)) as [negative s].
  destruct (Js.startsWith s "Infinity"); [done|].
  destruct (ReferenceRuntime.readDigits s 0 0) as [[int intCount] s1].
  destruct (match s1 with
            | String "." rest => ReferenceRuntime.readDigits rest int 0
            | _ => (int, O, s1)
            end) as [[mantissa fracCount] s2].
  destruct (bool_decide ((intCount + fracCount)%nat = O)); done.
Qed.


(** ** More of the operations on sample data *)

(** A lookup of Alice from the initial state. *)
Lemma lookup_sets_recentLookup_witness :
  perform (LoadOne "1") studentSlice.initialState Sample.oneRow =
    ({| students := []; recentLookup := Some Sample.alice;
        loading := false; error := None |},
     {| server := server Sample.oneRow; requests := [GET_student "1"] |}) ∧
  requests {| server := server Sample.oneRow; requests := [GET_student "1"] |} =
    requests Sample.oneRow ++ [GET_student "1"].
Proof.
  apply (lookup_sets_recentLookup studentSlice.initialState "1" Sample.oneRow
           Sample.aliceRow).
  vm_compute. reflexivity.
Defined.

Lemma sample_ids_distinct :
  uniqueIds [Sample.alice; Sample.bob; Sample.carol].
Proof.
  unfold uniqueIds. cbn [fmap list_fmap].
  apply (bool_decide_unpack _). vm_compute. exact I.
Defined.

(** A delete of Bob keeps the identifiers of the list distinct. *)
Lemma operations_keep_distinct_ids_witness :
  uniqueIds
    (students
       (perform (Delete "2")
          (Sample.loaded [Sample.alice; Sample.bob; Sample.carol] None)
          Sample.threeRows).1).
Proof.
  apply operations_keep_distinct_ids.
  - exact sample_ids_distinct.
  - intros draft. discriminate.
  - intros backendStudents net'. discriminate.
Defined.

(** A delete of Bob takes Bob out from between Alice and Carol. *)
Lemma delete_removes_exactly_that_record_witness :
  students
    (perform (Delete "2")
       (Sample.loaded [Sample.alice; Sample.bob; Sample.carol] None)
       Sample.threeRows).1
  = [Sample.alice] ++ [Sample.carol].
Proof.
  destruct (delete_removes_exactly_that_record
              (Sample.loaded [Sample.alice; Sample.bob; Sample.carol] None)
              "2" Sample.threeRows
              (run (studentService.deleteStudent "2") Sample.threeRows).2)
    as [_ Hremoved].
  - vm_compute. reflexivity.
  - apply (Hremoved [Sample.alice] Sample.bob [Sample.carol]).
    + reflexivity.
    + reflexivity.
    + exact sample_ids_distinct.
Defined.

(** Bob is created next to Alice and deleted again. *)
Lemma create_then_delete_restores_list_witness :
  students
    (perform (Delete (id Sample.bob))
       (perform (Create Sample.bobDraft) (Sample.loaded [Sample.alice] None)
          Sample.oneRow).1
       (perform (Create Sample.bobDraft) (Sample.loaded [Sample.alice] None)
          Sample.oneRow).2).1
  = [Sample.alice].
Proof.
  apply (create_then_delete_restores_list
           (Sample.loaded [Sample.alice] None) Sample.bobDraft Sample.bob
           Sample.oneRow
           (run (studentService.createStudent Sample.bobDraft) Sample.oneRow).2
           (run (studentService.deleteStudent "2")
              (run (studentService.createStudent Sample.bobDraft) Sample.oneRow).2).2).
  - vm_compute. reflexivity.
  - intros s Hs. apply list_elem_of_singleton in Hs. subst s.
    vm_compute. discriminate.
  - vm_compute. reflexivity.
Defined.

(** The update of Bob and the delete of Carol, in both orders. *)
Lemma update_and_delete_of_another_record_commute_witness :
  studentSlice.reducer
    (studentSlice.reducer
       (Sample.loaded [Sample.alice; Sample.bob; Sample.carol] None)
       (studentSlice.updateStudent_fulfilled Sample.robert))
    (studentSlice.deleteStudent_fulfilled "3") =
  studentSlice.reducer
    (studentSlice.reducer
       (Sample.loaded [Sample.alice; Sample.bob; Sample.carol] None)
       (studentSlice.deleteStudent_fulfilled "3"))
    (studentSlice.updateStudent_fulfilled Sample.robert).
Proof.
  apply update_and_delete_of_another_record_commute.
  vm_compute. discriminate.
Defined.

(** A create and a load are in flight; the load is answered first: the
    list is shown as idle while the create still waits for its answer. *)
Lemma completion_clears_loading_for_all_witness :
  let sys :=
    schedule
      {| store := Sample.loaded [Sample.alice] None; net := Sample.oneRow;
         inFlight := [] |}
      [Dispatch (studentSlice.createStudent Sample.bobDraft);
       Dispatch studentSlice.fetchStudents] in
  loading (store sys) = true ∧
  loading (store (step sys (Resume 1))) = false ∧
  length (inFlight (step sys (Resume 1))) = 1%nat.
Proof.
  cbv zeta. split; [reflexivity|].
  edestruct (completion_clears_loading_for_all
               (schedule
                  {| store := Sample.loaded [Sample.alice] None;
                     net := Sample.oneRow; inFlight := [] |}
                  [Dispatch (studentSlice.createStudent Sample.bobDraft);
                   Dispatch studentSlice.fetchStudents])
               1 GET_students
               (λ r : Js.Thrown + list BackendStudent,
                  tryCatch
                    (bind
                       match r with
                       | inl e => Rejected e
                       | inr data => Resolved data
                       end
                       (λ backendStudents,
                          Resolved (transformStudentFromBackend <$> backendStudents)))
                    studentSlice.fetchStudents_fulfilled
                    (λ e, studentSlice.fetchStudents_rejected
                            (studentSlice.errorMessage e "Failed to fetch students")))
               (inr [Sample.aliceRow])
               {| server := server Sample.oneRow; requests := [GET_students] |}
               (studentSlice.fetchStudents_fulfilled [Sample.alice]))
    as (Hidle & _ & Hlength).
  - reflexivity.
  - reflexivity.
  - reflexivity.
  - reflexivity.
  - split; [exact Hidle | exact Hlength].
Defined.

(** Alice, Bob and Carol by age. *)
Lemma view_sorted_by_number_witness :
  StronglySorted (λ a b, age a ≤ age b)
    (StudentsPage.filteredAndSortedStudents
       [Sample.carol; Sample.alice; Sample.bob] StudentsPage.noFilters
       {| key := key_age; direction := asc |}) ∧
  StronglySorted (λ a b, age b ≤ age a)
    (StudentsPage.filteredAndSortedStudents
       [Sample.carol; Sample.alice; Sample.bob] StudentsPage.noFilters
       {| key := key_age; direction := desc |}).
Proof.
  apply (view_sorted_by_number [Sample.carol; Sample.alice; Sample.bob]
           StudentsPage.noFilters key_age age).
  intros s. reflexivity.
Defined.

(** Two blanks in the search input. *)
Lemma blank_search_sends_nothing_witness :
  StudentLookupPage.handleSearch
    {| StudentLookupPage.searchId := "  "; StudentLookupPage.searchError := "" |}
    (studentSlice.initialState, Sample.oneRow) =
    ({| StudentLookupPage.searchId := "  ";
        StudentLookupPage.searchError := "Please enter a student ID" |},
     (studentSlice.initialState, Sample.oneRow)) ∧
  StudentLookupPage.searchDisabled
    {| StudentLookupPage.searchId := "  "; StudentLookupPage.searchError := "" |}
    studentSlice.initialState = true.
Proof.
  apply (blank_search_sends_nothing
           {| StudentLookupPage.searchId := "  "; StudentLookupPage.searchError := "" |}
           (studentSlice.initialState, Sample.oneRow)).
  reflexivity.
Defined.

(** The identifier 1 between blanks: Alice is looked up. *)
Lemma search_looks_up_trimmed_id_witness :
  let result :=
    StudentLookupPage.handleSearch
      {| StudentLookupPage.searchId := " 1 "; StudentLookupPage.searchError := "" |}
      (studentSlice.initialState, Sample.oneRow) in
  result.2 = perform (LoadOne "1") studentSlice.initialState Sample.oneRow ∧
  requests result.2.2 = requests Sample.oneRow ++ [GET_student "1"].
Proof.
  cbv zeta.
  destruct (search_looks_up_trimmed_id
              {| StudentLookupPage.searchId := " 1 ";
                 StudentLookupPage.searchError := "" |}
              studentSlice.initialState Sample.oneRow)
    as (Hperform & Hrequests & _).
  - reflexivity.
  - split; [exact Hperform | exact Hrequests].
Defined.

(** A search for an identifier the store has no row for. *)
Example lookup_of_unknown_identifier :
  let result :=
    StudentLookupPage.handleSearch
      {| StudentLookupPage.searchId := "99"; StudentLookupPage.searchError := "" |}
      (Sample.loaded [Sample.alice] (Some Sample.alice), Sample.oneRow) in
  StudentLookupPage.searchError result.1 =
    "Student not found. Please check the ID and try again." ∧
  recentLookup result.2.1 = Some Sample.alice ∧
  error result.2.1 = Some "Request failed with status code 404".
Proof. vm_compute. done. Qed.

(** A load from the initial state shows Alice, the one row of the store. *)
Lemma loadAll_replaces_records_witness :
  perform LoadAll studentSlice.initialState Sample.oneRow =
    ({| students := transformStudentFromBackend <$> [Sample.aliceRow];
        recentLookup := None; loading := false; error := None |},
     {| server := server Sample.oneRow; requests := [GET_students] |}).
Proof.
  apply (loadAll_replaces_records studentSlice.initialState Sample.oneRow).
  reflexivity.
Defined.

(** Bob is created next to Alice: the identifiers stay distinct. *)
Lemma create_keeps_distinct_ids_iff_fresh_witness :
  uniqueIds
    (students
       (perform (Create Sample.bobDraft) (Sample.loaded [Sample.alice] None)
          Sample.oneRow).1).
Proof.
  apply (create_keeps_distinct_ids_iff_fresh
           (Sample.loaded [Sample.alice] None) Sample.bobDraft Sample.bob
           Sample.oneRow
           (run (studentService.createStudent Sample.bobDraft) Sample.oneRow).2).
  - vm_compute. reflexivity.
  - unfold uniqueIds. cbn [fmap list_fmap].
    apply (bool_decide_unpack _). vm_compute. exact I.
  - intros s Hs. apply list_elem_of_singleton in Hs. subst s.
    vm_compute. discriminate.
Defined.

(** Alice and Bob are both in class 5: sorted by class they stay in the
    order of the list. *)
Lemma view_keeps_order_of_ties_witness :
  filter (λ s, class s = 5)
    (StudentsPage.filteredAndSortedStudents
       [Sample.carol; Sample.alice; Sample.bob] StudentsPage.noFilters
       {| key := key_class; direction := desc |}) =
  filter (λ s, class s = 5)
    (List.filter (StudentsPage.passes StudentsPage.noFilters)
       [Sample.carol; Sample.alice; Sample.bob]).
Proof.
  apply (view_keeps_order_of_ties [Sample.carol; Sample.alice; Sample.bob]
           StudentsPage.noFilters key_class class 5 desc).
  intros s. reflexivity.
Defined.

Example ties_by_class :
  StudentsPage.filteredAndSortedStudents
    [Sample.alice; Sample.carol; Sample.bob] StudentsPage.noFilters
    {| key := key_class; direction := asc |}
  = [Sample.alice; Sample.bob; Sample.carol] ∧
  StudentsPage.filteredAndSortedStudents
    [Sample.alice; Sample.carol; Sample.bob] StudentsPage.noFilters
    {| key := key_class; direction := desc |}
  = [Sample.carol; Sample.alice; Sample.bob].
Proof. vm_compute. done. Qed.

End Examples.
